(** * Litmos user management: bulk activation and deactivation of users

    Shallow embedding of [src/app.py]: the payload sanitizer
    [sanitize_user_data], the lifecycle operations [activate_user] and
    [deactivate_user], the [process_csv] endpoint with its session writes,
    and the [results_page] view that reads the session back.

    Modelling choices:
    - Python values coming from JSON (response bodies, CSV cells) are the
      type [json]; a Python dict is an association list kept in insertion
      order, as Python 3.7+ dicts are.  JSON numbers are integers here; any
      non-string value behaves the same for the code (it has no [.lower]
      and no [.get]), so the non-string CSV cells pandas can produce
      (integers, NaN) are represented by [JNum] or [JNull].
    - Every outbound HTTP call goes through [http]: the request is appended
      to the log of issued requests and the directory's reply is given by a
      [server] function of the history of requests and the new request, so
      that any deterministic, stateful directory can be plugged in.  The URL
      f-strings are represented by their endpoint and interpolated values.
    - A Python exception is the [Raise] outcome carrying [str(e)]; the
      [try/except Exception] blocks are [catch].
    - [str.lower] is modelled on ASCII letters.
    - UTF-8 decoding and [pd.read_csv] are library code: the endpoint takes
      them as parameters, each of which may raise. *)

From Stdlib Require Import String Ascii List ZArith Bool Lia.
Import ListNotations.
Open Scope string_scope.
Open Scope list_scope.
Set Warnings "-register-all".

(** ** JSON values and Python dicts *)

Inductive json : Type :=
| JNull
| JBool (b : bool)
| JNum (z : Z)
| JStr (s : string)
| JArr (l : list json)
| JObj (d : list (string * json)).

Definition dict := list (string * json).

(** [k in d] for a dict. *)
Fixpoint dict_mem (k : string) (d : dict) : bool :=
  match d with
  | [] => false
  | (k', _) :: d' => String.eqb k k' || dict_mem k d'
  end.

(** [d.get(k)] returning [None] for a missing key. *)
Fixpoint dict_get (d : dict) (k : string) : option json :=
  match d with
  | [] => None
  | (k', v) :: d' => if String.eqb k k' then Some v else dict_get d' k
  end.

(** [d.get(k, default)]. *)
Definition dict_get_default (d : dict) (k : string) (default : json) : json :=
  match dict_get d k with Some v => v | None => default end.

(** [d[k] = v]: an existing key keeps its position, a new key goes last. *)
Fixpoint dict_set (d : dict) (k : string) (v : json) : dict :=
  match d with
  | [] => [(k, v)]
  | (k', v') :: d' =>
      if String.eqb k k' then (k', v) :: d' else (k', v') :: dict_set d' k v
  end.

Definition dict_keys (d : dict) : list string := map fst d.

(** Python [==] on dicts ignores insertion order. *)
Definition dict_equiv (d1 d2 : dict) : Prop :=
  forall k, dict_get d1 k = dict_get d2 k.

(** Python truthiness of a JSON-derived value. *)
Definition truthy (v : json) : bool :=
  match v with
  | JNull => false
  | JBool b => b
  | JNum z => negb (Z.eqb z 0)
  | JStr s => negb (String.eqb s "")
  | JArr l => match l with [] => false | _ => true end
  | JObj d => match d with [] => false | _ => true end
  end.

(** [str.lower] on ASCII letters. *)
Definition lower_ascii (c : ascii) : ascii :=
  let n := nat_of_ascii c in
  if ((65 <=? n) && (n <=? 90))%nat then ascii_of_nat (n + 32) else c.

Fixpoint py_lower (s : string) : string :=
  match s with
  | EmptyString => EmptyString
  | String c s' => String (lower_ascii c) (py_lower s')
  end.

(** [sub in s] for strings. *)
Fixpoint str_contains (sub s : string) : bool :=
  String.prefix sub s ||
  match s with
  | EmptyString => false
  | String _ s' => str_contains sub s'
  end.

Fixpoint str_chars (s : string) : list json :=
  match s with
  | EmptyString => []
  | String c s' => JStr (String c EmptyString) :: str_chars s'
  end.

(** ** Exceptions *)

Inductive outcome (A : Type) : Type :=
| Ret (a : A)
| Raise (e : string).
Arguments Ret {A} a.
Arguments Raise {A} e.

Definition obind {A B} (o : outcome A) (f : A -> outcome B) : outcome B :=
  match o with Ret a => f a | Raise e => Raise e end.

(** [for x in v]: the elements a JSON value yields when iterated. *)
Definition py_iter (v : json) : outcome (list json) :=
  match v with
  | JArr l => Ret l
  | JObj d => Ret (map (fun kv => JStr (fst kv)) d)
  | JStr s => Ret (str_chars s)
  | JNull => Raise "'NoneType' object is not iterable"
  | JBool _ => Raise "'bool' object is not iterable"
  | JNum _ => Raise "'int' object is not iterable"
  end.

(** [k in v] for a string key [k]. *)
Definition py_contains (k : string) (v : json) : outcome bool :=
  match v with
  | JObj d => Ret (dict_mem k d)
  | JArr l =>
      Ret (existsb (fun x => match x with JStr s => String.eqb s k | _ => false end) l)
  | JStr s => Ret (str_contains k s)
  | JNull => Raise "argument of type 'NoneType' is not iterable"
  | JBool _ => Raise "argument of type 'bool' is not iterable"
  | JNum _ => Raise "argument of type 'int' is not iterable"
  end.

(** [v[k]] for a string key [k]. *)
Definition py_getitem (v : json) (k : string) : outcome json :=
  match v with
  | JObj d =>
      match dict_get d k with Some x => Ret x | None => Raise k end
  | JArr _ => Raise "list indices must be integers or slices, not str"
  | JStr _ => Raise "string indices must be integers, not 'str'"
  | JNull => Raise "'NoneType' object is not subscriptable"
  | JBool _ => Raise "'bool' object is not subscriptable"
  | JNum _ => Raise "'int' object is not subscriptable"
  end.

(** ** [sanitize_user_data] (app.py, lines 94-98) *)

Definition allowed : list string :=
  ["Id"; "FirstName"; "LastName"; "Email"; "Active"; "UserName"].

(** [{k: user_data[k] for k in allowed if k in user_data}] *)
Fixpoint comprehension (user_data : json) (ks : list string) (clean : dict)
  : outcome dict :=
  match ks with
  | [] => Ret clean
  | k :: ks' =>
      obind (py_contains k user_data) (fun present =>
      if present then
        obind (py_getitem user_data k) (fun v =>
        comprehension user_data ks' (dict_set clean k v))
      else comprehension user_data ks' clean)
  end.

Definition sanitize_user_data (user_data : json) (active_status : bool)
  : outcome dict :=
  obind (comprehension user_data allowed []) (fun clean =>
  Ret (dict_set clean "Active" (JBool active_status))).

(** ** The directory's HTTP interface *)

(** The requests the code issues, one constructor per URL template. *)
Inductive request : Type :=
| GetUsersSearch (username : json)               (* GET /users?search=... *)
| GetUser (user_id : json)                       (* GET /users/{id} *)
| PutUser (user_id : json) (payload : dict)      (* PUT /users/{id} *)
| GetUserTeams (user_id : json)                  (* GET /users/{id}/teams *)
| DeleteTeamUser (team_id user_id : json).       (* DELETE /teams/{t}/users/{id} *)

(** A [requests] response: [status_code], [text], and what [.json()] parses
    from the body ([None] when it raises). *)
Record response : Type := mk_response {
  status_code : Z;
  text : string;
  body : option json
}.

(** What a call to [requests.get/put/delete] yields: a response, or an
    exception (connection error, timeout, ...). *)
Inductive reply : Type :=
| Replied (r : response)
| ConnError (e : string).

Definition response_json (r : response) : outcome json :=
  match body r with
  | Some j => Ret j
  | None => Raise "Expecting value: line 1 column 1 (char 0)"
  end.

(** ** Computations: Python exceptions over the log of issued requests *)

Definition M (A : Type) : Type := list request -> outcome A * list request.

Definition ret {A} (a : A) : M A := fun log => (Ret a, log).

Definition raise {A} (e : string) : M A := fun log => (Raise e, log).

Definition bind {A B} (m : M A) (f : A -> M B) : M B :=
  fun log =>
    match m log with
    | (Ret a, log') => f a log'
    | (Raise e, log') => (Raise e, log')
    end.

Definition lift {A} (o : outcome A) : M A := fun log => (o, log).

(** [try: m except Exception as e: handler(str(e))] *)
Definition catch {A} (m : M A) (handler : string -> M A) : M A :=
  fun log =>
    match m log with
    | (Raise e, log') => handler e log'
    | r => r
    end.

Notation "x <- m ;; k" := (bind m (fun x => k))
  (at level 61, m at next level, right associativity).

(** One result row: [{"username": ..., "success": ..., "message": ...}]. *)
Record op_result : Type := mk_result {
  res_username : json;
  success : bool;
  message : string
}.

(** What [process_csv] returns once the username column has been read:
    [jsonify({"error": msg}), status] or [jsonify({"success": True,
    "results": results})] together with the [session['operation_type']]
    label. *)
Inductive batch_outcome : Type :=
| BatchError (msg : string) (status : Z)
| BatchOk (results : list op_result) (operation_label : string).

(** [next((u for u in users if u.get("UserName", "").lower() ==
    username.lower()), None)]: the first matching candidate; the
    generator raises on a candidate without [.get], a [UserName] without
    [.lower], or a [username] without [.lower]. *)
Fixpoint find_user (username : json) (users : list json) : outcome (option dict) :=
  match users with
  | [] => Ret None
  | u :: rest =>
      match u with
      | JObj d =>
          match dict_get_default d "UserName" (JStr "") with
          | JStr s =>
              match username with
              | JStr n =>
                  if String.eqb (py_lower s) (py_lower n) then Ret (Some d)
                  else find_user username rest
              | _ => Raise "object has no attribute 'lower'"
              end
          | _ => Raise "object has no attribute 'lower'"
          end
      | _ => Raise "object has no attribute 'get'"
      end
  end.

(** [not user] for [user : dict | None]. *)
Definition user_missing (user : option dict) : bool :=
  match user with
  | None => true
  | Some [] => true
  | Some _ => false
  end.

(** The idempotency guards of lines 116 and 157. *)
Definition activation_guard (user : dict) : bool :=
  truthy (dict_get_default user "Active" (JBool false)).

Definition deactivation_guard (user : dict) : bool :=
  negb (truthy (dict_get_default user "Active" (JBool true))).

Definition update_ok (status : Z) : bool :=
  existsb (Z.eqb status) [200; 201; 204]%Z.

Definition remove_ok (status : Z) : bool :=
  existsb (Z.eqb status) [200; 204]%Z.

Definition msg_duplicate_activation : string :=
  "Error: User is already active. Duplicate activation attempt.".

Definition msg_duplicate_deactivation : string :=
  "Error: User is already inactive. Duplicate deactivation attempt.".

Definition msg_activated : string := "User activated successfully".

Definition msg_deactivated : string :=
  "User deactivated, removed from all teams, and profile data cleared".

(** Lines 169-172: the deactivation payload. *)
Definition deactivation_update_data (user_data : json) : outcome dict :=
  obind (sanitize_user_data user_data false) (fun update_data =>
  let update_data := dict_set update_data "Region" (JStr "") in
  let update_data := dict_set update_data "Area" (JStr "") in
  Ret (dict_set update_data "Country" (JStr ""))).

Definition op_is (operation_type : option string) (s : string) : bool :=
  match operation_type with
  | Some o => String.eqb o s
  | None => false
  end.

Section Directory.

(** The directory: its reply to a request, given the requests issued
    before it. *)
Variable server : list request -> request -> reply.

Definition http (req : request) : M response :=
  fun log =>
    (match server log req with
     | Replied r => Ret r
     | ConnError e => Raise e
     end, log ++ [req]).

(** Lines 100-139. *)
Definition activate_user (username : json) : M op_result :=
  catch (
    response <- http (GetUsersSearch username) ;;
    if negb (Z.eqb (status_code response) 200) then
      ret (mk_result username false ("Failed to find user: " ++ text response))
    else
    users <- lift (response_json response) ;;
    candidates <- lift (py_iter users) ;;
    user <- lift (find_user username candidates) ;;
    match user with
    | Some d =>
      if user_missing user then ret (mk_result username false "User not found") else
      let user_id := dict_get_default d "Id" JNull in
      if activation_guard d then
        ret (mk_result username false msg_duplicate_activation)
      else
      get_response <- http (GetUser user_id) ;;
      if negb (Z.eqb (status_code get_response) 200) then
        ret (mk_result username false
               ("Failed to get user details: " ++ text get_response))
      else
      user_data <- lift (response_json get_response) ;;
      update_data <- lift (sanitize_user_data user_data true) ;;
      update_response <- http (PutUser user_id update_data) ;;
      if update_ok (status_code update_response) then
        ret (mk_result username true msg_activated)
      else
        ret (mk_result username false
               ("Failed to activate user: " ++ text update_response))
    | None => ret (mk_result username false "User not found")
    end)
  (fun e => ret (mk_result username false ("Error: " ++ e))).

(** Lines 185-190: [for team in teams: ... requests.delete(...)]; a failed
    removal is only logged. *)
Fixpoint remove_from_teams (user_id : json) (teams : list json) : M unit :=
  match teams with
  | [] => ret tt
  | team :: teams' =>
      match team with
      | JObj t =>
          let team_id := dict_get_default t "Id" JNull in
          remove_response <- http (DeleteTeamUser team_id user_id) ;;
          (* logger.warning when not remove_ok (status_code remove_response) *)
          remove_from_teams user_id teams'
      | _ => raise "object has no attribute 'get'"
      end
  end.

(** Lines 181-192: the team cleanup after a successful update. *)
Definition cleanup_teams (user_id : json) : M unit :=
  teams_response <- http (GetUserTeams user_id) ;;
  if Z.eqb (status_code teams_response) 200 then
    teams <- lift (response_json teams_response) ;;
    team_list <- lift (py_iter teams) ;;
    remove_from_teams user_id team_list
  else
    (* logger.warning *)
    ret tt.

(** Lines 141-202. *)
Definition deactivate_user (username : json) : M op_result :=
  catch (
    response <- http (GetUsersSearch username) ;;
    if negb (Z.eqb (status_code response) 200) then
      ret (mk_result username false ("Failed to find user: " ++ text response))
    else
    users <- lift (response_json response) ;;
    candidates <- lift (py_iter users) ;;
    user <- lift (find_user username candidates) ;;
    match user with
    | Some d =>
      if user_missing user then ret (mk_result username false "User not found") else
      let user_id := dict_get_default d "Id" JNull in
      if deactivation_guard d then
        ret (mk_result username false msg_duplicate_deactivation)
      else
      get_response <- http (GetUser user_id) ;;
      if negb (Z.eqb (status_code get_response) 200) then
        ret (mk_result username false
               ("Failed to get user details: " ++ text get_response))
      else
      user_data <- lift (response_json get_response) ;;
      update_data <- lift (deactivation_update_data user_data) ;;
      update_response <- http (PutUser user_id update_data) ;;
      if negb (update_ok (status_code update_response)) then
        ret (mk_result username false
               ("Failed to deactivate user: " ++ text update_response))
      else
      _ <- cleanup_teams user_id ;;
      ret (mk_result username true msg_deactivated)
    | None => ret (mk_result username false "User not found")
    end)
  (fun e => ret (mk_result username false ("Error: " ++ e))).

(** Lines 75-88: the row loop of [process_csv]; the operation type is
    checked inside the loop, once per row. *)
Fixpoint process_rows (operation_type : option string) (usernames : list json)
  (results : list op_result) : M batch_outcome :=
  match usernames with
  | [] =>
      ret (BatchOk results
             (if op_is operation_type "activation" then "Activation"
              else "Deactivation"))
  | username :: rest =>
      if op_is operation_type "activation" then
        result <- activate_user username ;;
        process_rows operation_type rest (results ++ [result])
      else if op_is operation_type "deactivation" then
        result <- deactivate_user username ;;
        process_rows operation_type rest (results ++ [result])
      else ret (BatchError "Invalid operation type" 400)
  end.

(** [process_csv] from line 74 on, under its [try/except] (lines 56, 90-92). *)
Definition process_usernames (operation_type : option string)
  (usernames : list json) : M batch_outcome :=
  catch (process_rows operation_type usernames [])
    (fun e => ret (BatchError e 500)).

End Directory.

(** ** The [process_csv] endpoint (app.py, lines 54-92) and the results page *)

(** An uploaded file: [file.filename] and the bytes [file.read()] returns. *)
Record file_storage : Type := mk_file {
  filename : string;
  file_bytes : list Byte.byte
}.

(** The parts of the Flask request the endpoint reads:
    [request.form.get("operation_type")] and [request.files]. *)
Record form_request : Type := mk_form_request {
  form_operation_type : option string;
  files : list (string * file_storage)
}.

(** [request.files[k]]: the first file sent under [k]. *)
Fixpoint files_get (fs : list (string * file_storage)) (k : string)
  : option file_storage :=
  match fs with
  | [] => None
  | (k', f) :: fs' => if String.eqb k k' then Some f else files_get fs' k
  end.

(** [s.endswith(suffix)]. *)
Definition str_endswith (s suffix : string) : bool :=
  let n := String.length s in
  let m := String.length suffix in
  ((m <=? n)%nat && String.eqb (substring (n - m) m s) suffix).

(** A pandas DataFrame as its columns, in order, each with its cells. *)
Definition data_frame := list (string * list json).

(** [df[c].tolist()]. *)
Fixpoint frame_column (df : data_frame) (c : string) : option (list json) :=
  match df with
  | [] => None
  | (c', cells) :: df' => if String.eqb c c' then Some cells else frame_column df' c
  end.

(** The two keys the app keeps in the Flask session. *)
Record session : Type := mk_session {
  session_results : option (list op_result);
  session_operation_type : option string
}.

(** The endpoint's JSON responses: [jsonify({"error": msg}), status] and
    [jsonify({"success": True, "results": results})]. *)
Inductive endpoint_response : Type :=
| JsonError (msg : string) (status : Z)
| JsonSuccess (results : list op_result).

Section Endpoint.

Variable server : list request -> request -> reply.

(** [bytes.decode('utf-8')] and [pd.read_csv(StringIO(...))]: library code,
    either of which may raise. *)
Variable decode_utf8 : list Byte.byte -> outcome string.
Variable read_csv : string -> outcome data_frame.

(** Lines 54-92.  Returns the response and the session after the request. *)
Definition process_csv (req : form_request) (sess : session)
  : M (endpoint_response * session) :=
  catch (
    let operation_type := form_operation_type req in
    match files_get (files req) "csv_file" with
    | None => ret (JsonError "No file part" 400, sess)
    | Some file =>
      if String.eqb (filename file) "" then
        ret (JsonError "No selected file" 400, sess)
      else if truthy (JStr (filename file))
              && negb (str_endswith (py_lower (filename file)) ".csv") then
        ret (JsonError "File must be CSV format" 400, sess)
      else
      csv_content <- lift (decode_utf8 (file_bytes file)) ;;
      df <- lift (read_csv csv_content) ;;
      if negb (existsb (String.eqb "username") (map fst df)) then
        ret (JsonError "CSV must contain a 'username' column" 400, sess)
      else
      usernames <- lift (match frame_column df "username" with
                         | Some cells => Ret cells
                         | None => Raise "'username'"
                         end) ;;
      outcome <- process_rows server operation_type usernames [] ;;
      match outcome with
      | BatchError msg status => ret (JsonError msg status, sess)
      | BatchOk results label =>
          ret (JsonSuccess results, mk_session (Some results) (Some label))
      end
    end)
  (fun e => ret (JsonError e 500, sess)).

End Endpoint.

(** Lines 48-52: what the results page renders, [session.get('results', [])]
    and [session.get('operation_type', 'Unknown')]. *)
Definition results_page (sess : session) : list op_result * string :=
  (match session_results sess with Some r => r | None => [] end,
   match session_operation_type sess with Some o => o | None => "Unknown" end).

(** ** Definitions used in the statements *)

(** Every value a computation returns normally satisfies [P]. *)
Definition returns {A} (P : A -> Prop) (m : M A) : Prop :=
  forall log a log', m log = (Ret a, log') -> P a.

(** [sequential f us rs log log']: running [f] on each element of [us] in
    order, starting from [log], returns [rs] and leaves [log']. *)
Inductive sequential (f : json -> M op_result)
  : list json -> list op_result -> list request -> list request -> Prop :=
| sequential_nil log : sequential f [] [] log log
| sequential_cons u us r rs log log' log'' :
    f u log = (Ret r, log') ->
    sequential f us rs log' log'' ->
    sequential f (u :: us) (r :: rs) log log''.

(** The lifecycle operation [process_csv] runs for a recognised type. *)
Definition row_operation (server : list request -> request -> reply)
  (operation_type : option string) : json -> M op_result :=
  if op_is operation_type "activation" then activate_user server
  else deactivate_user server.

Definition operation_label (operation_type : option string) : string :=
  if op_is operation_type "activation" then "Activation" else "Deactivation".

Definition is_put (req : request) : bool :=
  match req with PutUser _ _ => true | _ => false end.

Definition no_puts (l : list request) : bool := forallb (fun q => negb (is_put q)) l.

(** The user a request reads or changes; the search names none. *)
Definition request_user (req : request) : option json :=
  match req with
  | GetUsersSearch _ => None
  | GetUser id | PutUser id _ | GetUserTeams id | DeleteTeamUser _ id => Some id
  end.

(** The fields the deactivation payload adds after sanitizing. *)
Definition location_fields : list string := ["Region"; "Area"; "Country"].

(** The fields an update payload of the given operation may carry. *)
Definition payload_fields (operation_type : option string) : list string :=
  if op_is operation_type "activation" then allowed else allowed ++ location_fields.

(** ** A concrete directory, for evaluating the operations *)

Definition erin_record : dict :=
  [("Id", JNum 1); ("UserName", JStr "erin"); ("FirstName", JStr "Erin");
   ("Active", JBool true); ("Region", JStr "North")].

Definition carol_record : dict :=
  [("Id", JNum 2); ("UserName", JStr "carol"); ("Active", JBool false)].

Definition frank_record : dict :=
  [("Id", JNum 3); ("UserName", JStr "frank"); ("Email", JStr "f@x.org")].

Definition dave_record : dict :=
  [("Id", JNum 4); ("UserName", JStr "Dave"); ("LastName", JStr "Doe");
   ("Active", JBool true); ("Area", JStr "Sales"); ("Country", JStr "NZ")].

Definition erin : json := JObj erin_record.
Definition carol : json := JObj carol_record.
Definition frank : json := JObj frank_record.
Definition dave : json := JObj dave_record.

Definition search_response : response :=
  mk_response 200 "[...]" (Some (JArr [erin; carol; frank; dave])).

Definition directory_users : list json := [erin; carol; frank; dave].

Definition user_by_id (user_id : json) : option json :=
  find (fun r => match r, user_id with
                 | JObj d, JNum z =>
                     match dict_get d "Id" with Some (JNum z') => Z.eqb z z' | _ => false end
                 | _, _ => false
                 end) directory_users.

(** A directory whose search returns every user (it is not an exact
    match), whose update answers [put_status], and whose team listing
    answers [teams_reply]; each user is in teams 10 and 11. *)
Definition directory (put_status : Z) (teams_reply : reply)
  (history : list request) (req : request) : reply :=
  match req with
  | GetUsersSearch _ => Replied search_response
  | GetUser user_id =>
      match user_by_id user_id with
      | Some r => Replied (mk_response 200 "{...}" (Some r))
      | None => Replied (mk_response 404 "Not Found" None)
      end
  | PutUser _ _ => Replied (mk_response put_status "" None)
  | GetUserTeams _ => teams_reply
  | DeleteTeamUser _ _ => Replied (mk_response 204 "" None)
  end.

(** The update body the deactivation of [erin] sends. *)
Definition erin_deactivation_payload : dict :=
  [("Id", JNum 1); ("FirstName", JStr "Erin"); ("Active", JBool false);
   ("UserName", JStr "erin"); ("Region", JStr ""); ("Area", JStr "");
   ("Country", JStr "")].

Definition teams_unavailable : reply :=
  Replied (mk_response 503 "Service Unavailable" None).

Definition teams_connection_aborted : reply := ConnError "Connection aborted.".

Definition teams_listed : reply :=
  Replied (mk_response 200 "[...]"
             (Some (JArr [JObj [("Id", JNum 10)]; JObj [("Id", JNum 11)] ]))).


(** A directory that answers every request with 503. *)
Definition outage_directory (history : list request) (req : request) : reply :=
  Replied (mk_response 503 "Service Unavailable" None).

(** [directory] whose user-detail endpoint answers 404. *)
Definition directory_without_details (history : list request) (req : request) : reply :=
  match req with
  | GetUser _ => Replied (mk_response 404 "Not Found" None)
  | _ => directory 200 teams_listed history req
  end.

(** An upload of [roster.CSV] for deactivation, and a reader giving its
    one [username] cell. *)
Definition roster_upload : form_request :=
  mk_form_request (Some "deactivation") [("csv_file", mk_file "roster.CSV" [])].

Definition roster_decode (bytes : list Byte.byte) : outcome string :=
  Ret "username
erin".

Definition roster_read (content : string) : outcome data_frame :=
  Ret [("username", [JStr "erin"])].

Definition empty_session : session := mk_session None None.

(** The update body the activation of [carol] sends. *)
Definition carol_activation_payload : dict :=
  [("Id", JNum 2); ("Active", JBool true); ("UserName", JStr "carol")].

(** Everything the deactivation of [erin] issues against [directory 200
    teams_listed]. *)
Definition erin_deactivation_log : list request :=
  [GetUsersSearch (JStr "erin"); GetUser (JNum 1);
   PutUser (JNum 1) erin_deactivation_payload; GetUserTeams (JNum 1);
   DeleteTeamUser (JNum 10) (JNum 1); DeleteTeamUser (JNum 11) (JNum 1)].

(** One step of the comprehension over a dict. *)
Definition comp_step (d : dict) (clean : dict) (k : string) : dict :=
  match dict_get d k with Some v => dict_set clean k v | None => clean end.

(** ** Reasoning about computations *)

Lemma returns_ret {A} (P : A -> Prop) (a : A) : P a -> returns P (ret a).
Proof. intros HP log a' log' H. unfold ret in H. congruence. Qed.

Lemma returns_raise {A} (P : A -> Prop) e : returns P (@raise A e).
Proof. intros log a log' H. discriminate H. Qed.

Lemma returns_bind {A B} (P : B -> Prop) (m : M A) (f : A -> M B) :
  (forall a, returns P (f a)) -> returns P (bind m f).
Proof.
  intros Hf log b log' H. unfold bind in H.
  destruct (m log) as [[a|e] l]; [eapply Hf; eexact H | discriminate H].
Qed.

Lemma returns_catch {A} (P : A -> Prop) (m : M A) h :
  returns P m -> (forall e, returns P (h e)) -> returns P (catch m h).
Proof.
  intros Hm Hh log a log' H. unfold catch in H.
  destruct (m log) as [[a'|e] l] eqn:E.
  - injection H as <- <-. eapply Hm; eauto.
  - eapply Hh; eauto.
Qed.

(** A computation whose exceptions are all handled never raises. *)
Lemma catch_ret {A} (m : M A) (h : string -> A) log :
  exists a log', catch m (fun e => ret (h e)) log = (Ret a, log').
Proof.
  unfold catch, ret. destruct (m log) as [[a|e] l]; eauto.
Qed.

Ltac returns_tac :=
  repeat (cbv zeta;
    match goal with
    | |- returns _ (catch _ _) => apply returns_catch; [|intro]
    | |- returns _ (bind _ _) => apply returns_bind; intro
    | |- returns _ (ret _) => apply returns_ret; reflexivity
    | |- returns _ (raise _) => apply returns_raise
    | |- returns _ (if ?b then _ else _) => destruct b
    | |- returns _ (match ?x with _ => _ end) => destruct x
    end).

Section Rows.
Variable server : list request -> request -> reply.

Lemma activate_user_username u :
  returns (fun r => res_username r = u) (activate_user server u).
Proof. unfold activate_user. returns_tac. Qed.

Lemma deactivate_user_username u :
  returns (fun r => res_username r = u) (deactivate_user server u).
Proof. unfold deactivate_user. returns_tac. Qed.

Lemma activate_user_total u log :
  exists r log', activate_user server u log = (Ret r, log').
Proof. apply catch_ret. Qed.

Lemma deactivate_user_total u log :
  exists r log', deactivate_user server u log = (Ret r, log').
Proof. apply catch_ret. Qed.

End Rows.

Lemma sequential_usernames f us rs log log' :
  (forall u, returns (fun r => res_username r = u) (f u)) ->
  sequential f us rs log log' -> map res_username rs = us.
Proof.
  intros Hf Hs. induction Hs as [|u us r rs log1 log2 log3 Hu Hs IH]; simpl.
  - reflexivity.
  - rewrite IH. f_equal. eapply Hf; eexact Hu.
Qed.

Lemma process_rows_recognised server op us acc log :
  op_is op "activation" = true \/ op_is op "deactivation" = true ->
  exists rs log',
    process_rows server op us acc log
      = (Ret (BatchOk (acc ++ rs) (operation_label op)), log') /\
    sequential (row_operation server op) us rs log log'.
Proof.
  intros Hop. revert acc log.
  induction us as [|u us IH]; intros acc log; simpl.
  - exists [], log. rewrite app_nil_r. split; [reflexivity | constructor].
  - unfold row_operation.
    destruct (op_is op "activation") eqn:Ea.
    + destruct (activate_user_total server u log) as (r & log1 & Hr).
      unfold bind at 1. rewrite Hr.
      destruct (IH (acc ++ [r]) log1) as (rs & log2 & Hrun & Hseq).
      exists (r :: rs), log2. rewrite Hrun, <- app_assoc. split; [reflexivity|].
      econstructor; [exact Hr|]. unfold row_operation in Hseq. rewrite Ea in Hseq. exact Hseq.
    + destruct Hop as [Hop|Hop]; [discriminate Hop|]. rewrite Hop.
      destruct (deactivate_user_total server u log) as (r & log1 & Hr).
      unfold bind at 1. rewrite Hr.
      destruct (IH (acc ++ [r]) log1) as (rs & log2 & Hrun & Hseq).
      exists (r :: rs), log2. rewrite Hrun, <- app_assoc. split; [reflexivity|].
      econstructor; [exact Hr|]. unfold row_operation in Hseq. rewrite Ea in Hseq. exact Hseq.
Qed.

(** ** C1: one result per username, in input order, no row skipped *)

(** Claim C1: for a recognised operation type ("activation" or
    "deactivation") and any list of usernames, [process_csv] returns one
    result per username, in input order: the results are those of running
    the lifecycle operation on each username in turn, each row starting
    from the state the previous row left, so a failing row never aborts or
    skips the rows after it. *)
Theorem process_usernames_one_result_per_row server operation_type usernames log :
  operation_type = Some "activation" \/ operation_type = Some "deactivation" ->
  exists results log',
    process_usernames server operation_type usernames log
      = (Ret (BatchOk results (operation_label operation_type)), log') /\
    sequential (row_operation server operation_type) usernames results log log' /\
    map res_username results = usernames.
Proof.
  intros Hop.
  destruct (process_rows_recognised server operation_type usernames [] log)
    as (rs & log' & Hrun & Hseq).
  { destruct Hop as [-> | ->]; [left | right]; reflexivity. }
  exists rs, log'. unfold process_usernames, catch. rewrite Hrun. simpl.
  split; [reflexivity|]. split; [exact Hseq|].
  eapply sequential_usernames; [|exact Hseq].
  intro u. unfold row_operation.
  destruct (op_is operation_type "activation");
    [apply activate_user_username | apply deactivate_user_username].
Qed.

(** ** Stepping through a lifecycle operation *)

Lemma catch_bind_ret_step {A B} (m : M A) (f : A -> M B) h log a log' :
  m log = (Ret a, log') -> catch (bind m f) h log = catch (f a) h log'.
Proof. intros E. unfold catch, bind. rewrite E. reflexivity. Qed.

Lemma catch_bind_raise_step {A B} (m : M A) (f : A -> M B) h log e log' :
  m log = (Raise e, log') -> catch (bind m f) h log = h e log'.
Proof. intros E. unfold catch, bind. rewrite E. reflexivity. Qed.

Lemma catch_ret_step {A} (a : A) h log : catch (ret a) h log = (Ret a, log).
Proof. reflexivity. Qed.

Lemma http_replied server req log r :
  server log req = Replied r -> http server req log = (Ret r, log ++ [req]).
Proof. intros E. unfold http. rewrite E. reflexivity. Qed.

Lemma http_conn_error server req log e :
  server log req = ConnError e -> http server req log = (Raise e, log ++ [req]).
Proof. intros E. unfold http. rewrite E. reflexivity. Qed.

(** One step of a [catch]-wrapped computation, in hypothesis [H]. *)
Ltac step H :=
  cbv beta zeta in H;
  lazymatch type of H with
  | catch (bind (http ?srv ?req) _) _ ?log = _ =>
      let r := fresh "r" in let E := fresh "E" in
      destruct (srv log req) as [r|r] eqn:E;
      [ rewrite (catch_bind_ret_step _ _ _ _ _ _ (http_replied _ _ _ _ E)) in H
      | rewrite (catch_bind_raise_step _ _ _ _ _ _ (http_conn_error _ _ _ _ E)) in H ]
  | catch (bind (lift ?o) _) _ ?log = _ =>
      let x := fresh "x" in let E := fresh "E" in
      destruct o as [x|x] eqn:E;
      [ rewrite (catch_bind_ret_step _ _ _ _ _ _ (eq_refl : lift (Ret x) log = (Ret x, log))) in H
      | rewrite (catch_bind_raise_step _ _ _ _ _ _ (eq_refl : lift (Raise x) log = (Raise x, log))) in H ]
  | catch (bind ?m _) _ ?log = _ =>
      let x := fresh "x" in let l := fresh "l" in let E := fresh "E" in
      destruct (m log) as [[x|x] l] eqn:E;
      [ rewrite (catch_bind_ret_step _ _ _ _ _ _ E) in H
      | rewrite (catch_bind_raise_step _ _ _ _ _ _ E) in H ]
  | catch (ret _) _ _ = _ => rewrite catch_ret_step in H
  | catch (if ?b then _ else _) _ _ = _ =>
      let E := fresh "E" in destruct b eqn:E
  | catch (match ?x with _ => _ end) _ _ = _ =>
      let E := fresh "E" in destruct x eqn:E
  end.

Ltac run H := repeat (step H); cbv beta in H; unfold ret in H.

(** Use the equations gathered by [run] against the hypotheses. *)
Ltac settle :=
  repeat match goal with
  | F : Replied _ = Replied _ |- _ => injection F as F; subst
  | F : Ret _ = Ret _ |- _ => injection F as F; subst
  | F : Some _ = Some _ |- _ => injection F as F; subst
  | E : ?x = _, F : ?x = _ |- _ =>
      assert_fails (is_var x); rewrite E in F;
      first [discriminate F | injection F; clear F; intros; subst | clear F]
  end.

Lemma found_not_missing d k v :
  dict_get d k = Some v -> user_missing (Some d) = false.
Proof. destruct d; [discriminate | reflexivity]. Qed.

Lemma missing_empty d : user_missing (Some d) = true -> d = [].
Proof. destruct d; [reflexivity | discriminate]. Qed.

Section Traces.
Variable server : list request -> request -> reply.

Lemma remove_from_teams_trace user_id teams log :
  exists tr, snd (remove_from_teams server user_id teams log) = log ++ tr /\
             no_puts tr = true.
Proof.
  revert log. induction teams as [|team teams IH]; intros log; simpl.
  - exists []. rewrite app_nil_r. auto.
  - destruct team; simpl; try (exists []; rewrite app_nil_r; auto; fail).
    unfold bind, http. destruct (server log _) as [r|e].
    + destruct (IH (log ++ [DeleteTeamUser (dict_get_default d "Id" JNull) user_id]))
        as (tr & Htr & Hp).
      rewrite Htr, <- app_assoc. eexists; split; [reflexivity|]. simpl. exact Hp.
    + simpl. eexists; split; [reflexivity|]. reflexivity.
Qed.

Lemma cleanup_teams_trace user_id log :
  exists tr, snd (cleanup_teams server user_id log) = log ++ tr /\
             no_puts tr = true.
Proof.
  unfold cleanup_teams, bind, http, lift, ret.
  destruct (server log (GetUserTeams user_id)) as [r|e]; simpl.
  - destruct (status_code r =? 200)%Z; simpl.
    + destruct (response_json r) as [j|e]; simpl;
        [|eexists; split; [reflexivity|reflexivity]].
      destruct (py_iter j) as [ts|e]; simpl;
        [|eexists; split; [reflexivity|reflexivity]].
      destruct (remove_from_teams_trace user_id ts (log ++ [GetUserTeams user_id]))
        as (tr & Htr & Hp).
      rewrite Htr, <- app_assoc. eexists; split; [reflexivity|]. exact Hp.
    + eexists; split; [reflexivity|reflexivity].
  - eexists; split; [reflexivity|reflexivity].
Qed.

(** Once the search found [d] and the guard stopped, only the search was
    issued. *)
Lemma activate_duplicate u log0 resp users candidates d :
  server log0 (GetUsersSearch u) = Replied resp ->
  status_code resp = 200%Z ->
  response_json resp = Ret users ->
  py_iter users = Ret candidates ->
  find_user u candidates = Ret (Some d) ->
  dict_get d "Active" = Some (JBool true) ->
  activate_user server u log0
    = (Ret (mk_result u false msg_duplicate_activation), log0 ++ [GetUsersSearch u]).
Proof.
  intros Hs Hst Hj Hi Hf Ha.
  destruct (activate_user server u log0) as [o l] eqn:H.
  unfold activate_user in H. run H.
  all: settle; rewrite ?Hst in *; try discriminate.
  all: try (unfold activation_guard, dict_get_default in *; rewrite Ha in *; discriminate).
  all: try (rewrite (found_not_missing _ _ _ Ha) in *; discriminate).
  all: congruence.
Qed.

Lemma deactivate_duplicate u log0 resp users candidates d :
  server log0 (GetUsersSearch u) = Replied resp ->
  status_code resp = 200%Z ->
  response_json resp = Ret users ->
  py_iter users = Ret candidates ->
  find_user u candidates = Ret (Some d) ->
  dict_get d "Active" = Some (JBool false) ->
  deactivate_user server u log0
    = (Ret (mk_result u false msg_duplicate_deactivation), log0 ++ [GetUsersSearch u]).
Proof.
  intros Hs Hst Hj Hi Hf Ha.
  destruct (deactivate_user server u log0) as [o l] eqn:H.
  unfold deactivate_user in H. run H.
  all: settle; rewrite ?Hst in *; try discriminate.
  all: try (unfold deactivation_guard, dict_get_default in *; rewrite Ha in *; discriminate).
  all: try (rewrite (found_not_missing _ _ _ Ha) in *; discriminate).
  all: congruence.
Qed.

End Traces.

Ltac trace_prefix server :=
  match goal with
  | E : cleanup_teams server ?id ?L = (_, ?l) |- _ =>
      let tr := fresh "tr" in
      destruct (cleanup_teams_trace server id L) as (tr & ? & ?);
      rewrite E in *; simpl in *; subst l
  | _ => idtac
  end;
  eexists; rewrite <- ?app_assoc; reflexivity.

Lemma missing_active_guards d :
  dict_get d "Active" = None ->
  activation_guard d = false /\ deactivation_guard d = false.
Proof.
  intros Ha. unfold activation_guard, deactivation_guard, dict_get_default.
  rewrite Ha. split; reflexivity.
Qed.

Lemma activate_missing_active_fetches_details server u log0 resp users candidates d :
  server log0 (GetUsersSearch u) = Replied resp ->
  status_code resp = 200%Z ->
  response_json resp = Ret users ->
  py_iter users = Ret candidates ->
  find_user u candidates = Ret (Some d) ->
  d <> [] ->
  dict_get d "Active" = None ->
  exists rest, snd (activate_user server u log0)
    = log0 ++ GetUsersSearch u :: GetUser (dict_get_default d "Id" JNull) :: rest.
Proof.
  intros Hs Hst Hj Hi Hf Hd Ha.
  destruct (activate_user server u log0) as [o l] eqn:H. simpl.
  unfold activate_user in H. run H.
  all: settle; rewrite ?Hst in *; try discriminate.
  all: try (destruct (missing_active_guards _ Ha); congruence).
  all: try (match goal with E : user_missing _ = true |- _ =>
              apply missing_empty in E end; congruence).
  all: injection H as _ <-; trace_prefix server.
Qed.

Lemma deactivate_missing_active_fetches_details server u log0 resp users candidates d :
  server log0 (GetUsersSearch u) = Replied resp ->
  status_code resp = 200%Z ->
  response_json resp = Ret users ->
  py_iter users = Ret candidates ->
  find_user u candidates = Ret (Some d) ->
  d <> [] ->
  dict_get d "Active" = None ->
  exists rest, snd (deactivate_user server u log0)
    = log0 ++ GetUsersSearch u :: GetUser (dict_get_default d "Id" JNull) :: rest.
Proof.
  intros Hs Hst Hj Hi Hf Hd Ha.
  destruct (deactivate_user server u log0) as [o l] eqn:H. simpl.
  unfold deactivate_user in H. run H.
  all: settle; rewrite ?Hst in *; try discriminate.
  all: try (destruct (missing_active_guards _ Ha); congruence).
  all: try (match goal with E : user_missing _ = true |- _ =>
              apply missing_empty in E end; congruence).
  all: injection H as _ <-; trace_prefix server.
Qed.

(** ** Locating the update request in a deactivation's log *)

Lemma no_puts_in l q : no_puts l = true -> In q l -> is_put q = false.
Proof.
  unfold no_puts. intros H Hin. rewrite forallb_forall in H.
  specialize (H q Hin). destruct (is_put q); [discriminate | reflexivity].
Qed.

Lemma no_puts_split xs pre y post :
  xs = pre ++ y :: post -> no_puts xs = true -> is_put y = true -> False.
Proof.
  intros -> Hn Hy. rewrite (no_puts_in _ y Hn) in Hy; [discriminate|].
  apply in_or_app. right. left. reflexivity.
Qed.

Lemma put_split xs x tr pre y post :
  xs ++ x :: tr = pre ++ y :: post ->
  no_puts xs = true -> no_puts tr = true -> is_put y = true ->
  pre = xs /\ y = x /\ post = tr.
Proof.
  revert pre. induction xs as [|a xs IH]; intros pre Heq Hxs Htr Hy.
  - destruct pre as [|b pre]; simpl in Heq; injection Heq as H1 H2.
    + subst. auto.
    + exfalso. apply (no_puts_split tr pre y post H2 Htr Hy).
  - simpl in Hxs. apply andb_prop in Hxs as [Ha Hxs].
    destruct pre as [|b pre]; simpl in Heq; injection Heq as H1 H2.
    + subst. rewrite Hy in Ha. discriminate.
    + subst. destruct (IH pre H2 Hxs Htr Hy) as (-> & -> & ->). auto.
Qed.

Ltac log_eq Hx :=
  rewrite <- ?app_assoc in Hx; simpl in Hx; apply app_inv_head in Hx.

Section Update.
Variable server : list request -> request -> reply.

(** What a deactivation does from the update request on, for an update
    request found in its log. *)
Lemma deactivate_after_update u log0 o log1 pre id body post :
  deactivate_user server u log0 = (o, log1) ->
  log1 = log0 ++ pre ++ PutUser id body :: post ->
  match server (log0 ++ pre) (PutUser id body) with
  | ConnError e => o = Ret (mk_result u false ("Error: " ++ e)) /\ post = []
  | Replied r =>
      if update_ok (status_code r) then
        let '(c, l) := cleanup_teams server id (log0 ++ pre ++ [PutUser id body]) in
        o = Ret (match c with
                 | Ret _ => mk_result u true msg_deactivated
                 | Raise e => mk_result u false ("Error: " ++ e)
                 end) /\
        log1 = l
      else
        o = Ret (mk_result u false ("Failed to deactivate user: " ++ text r)) /\
        post = []
  end.
Proof.
  intros H Hlog. unfold deactivate_user in H. run H.
  all: injection H as <- <-.
  all: try (exfalso; log_eq Hlog;
            eapply no_puts_split; [exact Hlog | reflexivity | reflexivity]).
  all: try match goal with
       | E : cleanup_teams server ?i ?L = (_, ?l) |- _ =>
           let tr := fresh "tr" in let Ht := fresh "Ht" in let Hn := fresh "Hn" in
           destruct (cleanup_teams_trace server i L) as (tr & Ht & Hn);
           rewrite E in Ht; simpl in Ht; rewrite Ht in Hlog
       end.
  all: log_eq Hlog.
  all: first
    [ destruct (put_split [_; _] _ [] _ _ _ Hlog eq_refl eq_refl eq_refl)
        as (-> & Hy & ->)
    | destruct (put_split [_; _] _ _ _ _ _ Hlog eq_refl ltac:(assumption) eq_refl)
        as (-> & Hy & ->) ].
  all: injection Hy as -> ->.
  all: rewrite <- ?app_assoc in *; cbn [app] in *.
  all: match goal with
       | E : server _ (PutUser _ _) = _ |- _ => rewrite E
       end.
  all: try (split; reflexivity).
  all: match goal with
       | E : negb (update_ok ?s) = _ |- _ => destruct (update_ok s); try discriminate E
       end.
  all: try (split; reflexivity).
  all: match goal with
       | E : cleanup_teams _ _ _ = _ |- _ => rewrite E
       end.
  all: split; reflexivity.
Qed.

End Update.

(** ** Team cleanup: status failures are only logged *)

Lemma cleanup_teams_listing_status_absorbed server user_id log resp :
  server log (GetUserTeams user_id) = Replied resp ->
  status_code resp <> 200%Z ->
  cleanup_teams server user_id log = (Ret tt, log ++ [GetUserTeams user_id]).
Proof.
  intros Hs Hst. unfold cleanup_teams, bind, http. rewrite Hs.
  apply Z.eqb_neq in Hst. rewrite Hst. reflexivity.
Qed.

Lemma remove_from_teams_status_absorbed server user_id teams log :
  (forall h team_id, exists resp, server h (DeleteTeamUser team_id user_id) = Replied resp) ->
  Forall (fun team => exists t, team = JObj t) teams ->
  fst (remove_from_teams server user_id teams log) = Ret tt.
Proof.
  intros Hdel Hteams. revert log.
  induction Hteams as [|team teams [t ->] _ IH]; intros log; simpl.
  - reflexivity.
  - unfold bind, http.
    destruct (Hdel log (dict_get_default t "Id" JNull)) as [resp Hr]. rewrite Hr.
    apply IH.
Qed.

(** ** C2: the idempotency guards *)

(** Claim C2: when the search succeeds and its first matching record has
    [Active = true], activation returns [success = false] with the
    duplicate-activation message, and the search is the only request it
    issues (in particular no update); when that record has
    [Active = false], deactivation returns [success = false] with the
    duplicate-deactivation message and likewise issues only the search. *)
Theorem duplicate_state_issues_no_update server u log0 resp users candidates d :
  server log0 (GetUsersSearch u) = Replied resp ->
  status_code resp = 200%Z ->
  response_json resp = Ret users ->
  py_iter users = Ret candidates ->
  find_user u candidates = Ret (Some d) ->
  (dict_get d "Active" = Some (JBool true) ->
     activate_user server u log0
       = (Ret (mk_result u false msg_duplicate_activation), log0 ++ [GetUsersSearch u])) /\
  (dict_get d "Active" = Some (JBool false) ->
     deactivate_user server u log0
       = (Ret (mk_result u false msg_duplicate_deactivation), log0 ++ [GetUsersSearch u])).
Proof.
  intros Hs Hst Hj Hi Hf. split; intros Ha.
  - exact (activate_duplicate server u log0 resp users candidates d Hs Hst Hj Hi Hf Ha).
  - exact (deactivate_duplicate server u log0 resp users candidates d Hs Hst Hj Hi Hf Ha).
Qed.

(** ** C8: deactivating an already inactive user *)

(** Claim C8: deactivating a username whose search finds a record that is
    already inactive returns [{username, success: false, message: "Error:
    User is already inactive. Duplicate deactivation attempt."}]; the
    search is the only request issued, so no call is made beyond the
    search and the detail fetch (the detail fetch itself is not made). *)
Theorem deactivate_inactive_user_result server u log0 resp users candidates d :
  server log0 (GetUsersSearch u) = Replied resp ->
  status_code resp = 200%Z ->
  response_json resp = Ret users ->
  py_iter users = Ret candidates ->
  find_user u candidates = Ret (Some d) ->
  dict_get d "Active" = Some (JBool false) ->
  deactivate_user server u log0
    = (Ret (mk_result u false
              "Error: User is already inactive. Duplicate deactivation attempt."),
       log0 ++ [GetUsersSearch u]).
Proof.
  intros Hs Hst Hj Hi Hf Ha.
  exact (deactivate_duplicate server u log0 resp users candidates d Hs Hst Hj Hi Hf Ha).
Qed.

(** ** C9: a record without [Active] *)

(** Claim C9: for a matched record without an [Active] field, the
    activation guard ([user.get("Active", False)]) and the deactivation
    guard ([not user.get("Active", True)]) are both false, so neither
    reports a duplicate; for a non-empty such record both operations go
    on past their guard and fetch the user's details. *)
Theorem missing_active_passes_both_guards server u log0 resp users candidates d :
  server log0 (GetUsersSearch u) = Replied resp ->
  status_code resp = 200%Z ->
  response_json resp = Ret users ->
  py_iter users = Ret candidates ->
  find_user u candidates = Ret (Some d) ->
  dict_get d "Active" = None ->
  activation_guard d = false /\ deactivation_guard d = false /\
  (d <> [] ->
   (exists rest, snd (activate_user server u log0)
      = log0 ++ GetUsersSearch u :: GetUser (dict_get_default d "Id" JNull) :: rest) /\
   (exists rest, snd (deactivate_user server u log0)
      = log0 ++ GetUsersSearch u :: GetUser (dict_get_default d "Id" JNull) :: rest)).
Proof.
  intros Hs Hst Hj Hi Hf Ha.
  destruct (missing_active_guards d Ha) as [Ga Gd].
  split; [exact Ga|]. split; [exact Gd|]. intros Hd. split.
  - exact (activate_missing_active_fetches_details server u log0 resp users candidates d
             Hs Hst Hj Hi Hf Hd Ha).
  - exact (deactivate_missing_active_fetches_details server u log0 resp users candidates d
             Hs Hst Hj Hi Hf Hd Ha).
Qed.

(** ** C6: a failed update ends the deactivation *)

(** Claim C6: when the update (PUT) of a deactivation answers a status
    outside {200, 201, 204}, the deactivation returns [success = false]
    with the "Failed to deactivate user" message and the update is the
    last request it issues: no team listing and no team removal follow. *)
Theorem deactivate_failed_update_skips_team_cleanup
  server u log0 r log1 pre id body post resp :
  deactivate_user server u log0 = (Ret r, log1) ->
  log1 = log0 ++ pre ++ PutUser id body :: post ->
  server (log0 ++ pre) (PutUser id body) = Replied resp ->
  update_ok (status_code resp) = false ->
  success r = false /\
  message r = ("Failed to deactivate user: " ++ text resp)%string /\
  post = [].
Proof.
  intros H Hlog Hput Hbad.
  pose proof (deactivate_after_update server u log0 _ _ pre id body post H Hlog) as Hafter.
  rewrite Hput, Hbad in Hafter. destruct Hafter as [Hr ->].
  injection Hr as Hr. subst r. auto.
Qed.

(** ** C7: the result of a deactivation whose update succeeded *)

(** Claim C7 (amended): when the update (PUT) of a deactivation answers a
    status in {200, 201, 204}, the result depends only on whether the team
    cleanup raises: if it completes, the result is [success = true] with
    the full success message whatever the status codes of the team listing
    and the removals; if it raises [e] (a connection error on the listing
    or on a removal, an unparseable listing, a team that is not an
    object), the result is [success = false] with "Error: e". *)
Theorem deactivate_successful_update_result
  server u log0 r log1 pre id body post resp :
  deactivate_user server u log0 = (Ret r, log1) ->
  log1 = log0 ++ pre ++ PutUser id body :: post ->
  server (log0 ++ pre) (PutUser id body) = Replied resp ->
  update_ok (status_code resp) = true ->
  r = match fst (cleanup_teams server id (log0 ++ pre ++ [PutUser id body])) with
      | Ret _ => mk_result u true msg_deactivated
      | Raise e => mk_result u false ("Error: " ++ e)
      end.
Proof.
  intros H Hlog Hput Hok.
  pose proof (deactivate_after_update server u log0 _ _ pre id body post H Hlog) as Hafter.
  rewrite Hput, Hok in Hafter.
  destruct (cleanup_teams server id (log0 ++ pre ++ [PutUser id body])) as [c l].
  destruct Hafter as [Hr _]. injection Hr as Hr. subst r. reflexivity.
Qed.

(** ** The sanitizer on dicts *)

Lemma dict_get_set c k v k' :
  dict_get (dict_set c k v) k' = if String.eqb k' k then Some v else dict_get c k'.
Proof.
  induction c as [|[k0 v0] c IH]; simpl.
  - reflexivity.
  - destruct (String.eqb_spec k k0) as [<-|Hne]; simpl.
    + destruct (String.eqb k' k); reflexivity.
    + rewrite IH. destruct (String.eqb_spec k' k0) as [->|]; [|reflexivity].
      destruct (String.eqb_spec k0 k); [congruence | reflexivity].
Qed.

Lemma dict_mem_get k d :
  dict_mem k d = match dict_get d k with Some _ => true | None => false end.
Proof.
  induction d as [|[k0 v0] d IH]; simpl; [reflexivity|].
  destruct (String.eqb k k0); simpl; auto.
Qed.

Lemma dict_keys_get c k : In k (dict_keys c) -> exists v, dict_get c k = Some v.
Proof.
  induction c as [|[k0 v0] c IH]; simpl; [intros []|].
  intros [<-|Hin].
  - rewrite String.eqb_refl. eauto.
  - destruct (String.eqb k k0); eauto.
Qed.

Lemma dict_keys_set c k v k' :
  In k' (dict_keys (dict_set c k v)) -> k' = k \/ In k' (dict_keys c).
Proof.
  induction c as [|[k0 v0] c IH]; simpl.
  - intros [<-|[]]. auto.
  - destruct (String.eqb_spec k k0) as [<-|]; simpl.
    + intros [<-|Hin]; auto.
    + intros [<-|Hin]; auto. destruct (IH Hin); auto.
Qed.

Lemma comprehension_obj d ks clean :
  comprehension (JObj d) ks clean = Ret (fold_left (comp_step d) ks clean).
Proof.
  revert clean. induction ks as [|k ks IH]; intros clean; simpl; [reflexivity|].
  rewrite dict_mem_get. unfold comp_step at 2.
  destruct (dict_get d k); simpl; apply IH.
Qed.

Lemma fold_comp_step_get d ks clean k :
  dict_get (fold_left (comp_step d) ks clean) k
  = if existsb (String.eqb k) ks
    then match dict_get d k with Some v => Some v | None => dict_get clean k end
    else dict_get clean k.
Proof.
  revert clean. induction ks as [|k0 ks IH]; intros clean; simpl; [reflexivity|].
  rewrite IH. unfold comp_step.
  destruct (String.eqb_spec k k0) as [<-|Hne]; simpl.
  - destruct (dict_get d k) eqn:E;
      [rewrite dict_get_set, String.eqb_refl|]; destruct (existsb _ ks); reflexivity.
  - destruct (dict_get d k0); [rewrite dict_get_set|].
    + apply String.eqb_neq in Hne. rewrite Hne. reflexivity.
    + reflexivity.
Qed.

(** What [sanitize_user_data] returns for a dict, field by field. *)
Lemma sanitize_user_data_get d a :
  exists clean, sanitize_user_data (JObj d) a = Ret clean /\
  forall k, dict_get clean k
            = if String.eqb k "Active" then Some (JBool a)
              else if existsb (String.eqb k) allowed then dict_get d k else None.
Proof.
  unfold sanitize_user_data. rewrite comprehension_obj. cbv beta iota delta [obind].
  eexists; split; [reflexivity|]. intros k.
  rewrite dict_get_set. destruct (String.eqb k "Active"); [reflexivity|].
  rewrite fold_comp_step_get. simpl dict_get at 2.
  destruct (existsb _ allowed); [|reflexivity].
  destruct (dict_get d k); reflexivity.
Qed.

Lemma comprehension_keys j ks clean out :
  comprehension j ks clean = Ret out ->
  forall k, In k (dict_keys out) -> In k (dict_keys clean) \/ In k ks.
Proof.
  revert clean. induction ks as [|k0 ks IH]; intros clean H k Hk; simpl in H.
  - injection H as <-. auto.
  - destruct (py_contains k0 j) as [[|]|e]; simpl in H; [| |discriminate H].
    + destruct (py_getitem j k0) as [v|e]; simpl in H; [|discriminate H].
      destruct (IH _ H k Hk) as [Hin|Hin]; [|simpl; auto].
      destruct (dict_keys_set _ _ _ _ Hin); simpl; auto.
    + destruct (IH _ H k Hk); simpl; auto.
Qed.

Lemma sanitize_user_data_keys j a clean :
  sanitize_user_data j a = Ret clean -> forall k, In k (dict_keys clean) -> In k allowed.
Proof.
  unfold sanitize_user_data. intros H k Hk.
  destruct (comprehension j allowed []) as [c|e] eqn:E; simpl in H; [|discriminate H].
  injection H as <-. destruct (dict_keys_set _ _ _ _ Hk) as [->|Hin].
  - simpl. tauto.
  - destruct (comprehension_keys _ _ _ _ E k Hin) as [[]|]; assumption.
Qed.

Lemma deactivation_update_data_fields j payload :
  deactivation_update_data j = Ret payload ->
  (forall k, In k (dict_keys payload) -> In k (allowed ++ location_fields)) /\
  (forall k, In k location_fields -> dict_get payload k = Some (JStr "")).
Proof.
  unfold deactivation_update_data. intros H.
  destruct (sanitize_user_data j false) as [c|e] eqn:E; simpl in H; [|discriminate H].
  injection H as <-. split.
  - intros k Hk. apply in_or_app.
    repeat (apply dict_keys_set in Hk as [->|Hk]; [right; simpl; tauto|]).
    left. exact (sanitize_user_data_keys _ _ _ E k Hk).
  - intros k [<-|[<-|[<-|[]]]]; rewrite !dict_get_set; reflexivity.
Qed.

(** ** C3: the sanitizer *)

(** Claim C3 (amended): for every user record [d] and flag [a],
    [sanitize_user_data(d, a)] keeps only allow-listed fields: [Active]
    is [a], every other allow-listed field of [d] is copied, nothing else
    is kept, so the location fields Region, Area and Country are absent
    from its output for either flag.  It is the deactivation that, after
    sanitizing with [a = false], sets those three fields to the empty
    string in its update payload, the other fields being the sanitizer's. *)
Theorem sanitize_user_data_allow_list d a :
  exists clean, sanitize_user_data (JObj d) a = Ret clean /\
  (forall k, In k (dict_keys clean) -> In k allowed) /\
  dict_get clean "Active" = Some (JBool a) /\
  (forall k, In k allowed -> k <> "Active" -> dict_get clean k = dict_get d k) /\
  (forall k, In k location_fields -> dict_get clean k = None) /\
  (a = false ->
   exists payload, deactivation_update_data (JObj d) = Ret payload /\
   (forall k, In k location_fields -> dict_get payload k = Some (JStr "")) /\
   (forall k, ~ In k location_fields -> dict_get payload k = dict_get clean k)).
Proof.
  destruct (sanitize_user_data_get d a) as (clean & Hs & Hg).
  exists clean. split; [exact Hs|]. split; [exact (sanitize_user_data_keys _ _ _ Hs)|].
  split; [rewrite Hg; reflexivity|]. split; [|split].
  - intros k Hk Hne. rewrite Hg.
    apply String.eqb_neq in Hne. rewrite Hne.
    replace (existsb (String.eqb k) allowed) with true; [reflexivity|].
    symmetry. apply existsb_exists. exists k. split; [exact Hk | apply String.eqb_refl].
  - intros k [<-|[<-|[<-|[]]]]; rewrite Hg; reflexivity.
  - intros ->. unfold deactivation_update_data. rewrite Hs. simpl obind.
    eexists; split; [reflexivity|]. split.
    + intros k [<-|[<-|[<-|[]]]]; rewrite !dict_get_set; reflexivity.
    + intros k Hk. rewrite !dict_get_set.
      destruct (String.eqb_spec k "Country") as [->|_]; [exfalso; apply Hk; simpl; tauto|].
      destruct (String.eqb_spec k "Area") as [->|_]; [exfalso; apply Hk; simpl; tauto|].
      destruct (String.eqb_spec k "Region") as [->|_]; [exfalso; apply Hk; simpl; tauto|].
      reflexivity.
Qed.

(** ** C10: the sanitizer is idempotent *)

(** Claim C10: for every user record [d] and flag [a], sanitizing the
    output of [sanitize_user_data(d, a)] again with [a] gives a dict equal
    to it under Python's [==] (same keys, same values; the key order may
    differ when [d] had no [Active] field). *)
Theorem sanitize_user_data_idempotent d a :
  exists clean clean',
    sanitize_user_data (JObj d) a = Ret clean /\
    sanitize_user_data (JObj clean) a = Ret clean' /\
    dict_equiv clean' clean.
Proof.
  destruct (sanitize_user_data_get d a) as (c & Hs & Hg).
  destruct (sanitize_user_data_get c a) as (c' & Hs' & Hg').
  exists c, c'. split; [exact Hs|]. split; [exact Hs'|].
  intros k. rewrite Hg'.
  destruct (String.eqb k "Active") eqn:EA; [rewrite Hg, EA; reflexivity|].
  destruct (existsb (String.eqb k) allowed) eqn:EX; [reflexivity|].
  rewrite Hg, EA, EX. reflexivity.
Qed.

(** ** C4: update payloads *)

Ltac put_in_trace H Hin :=
  let Hl := fresh "Hl" in
  injection H as _ Hl;
  try match goal with
  | E : cleanup_teams ?srv ?i ?L = (_, ?l) |- _ =>
      let tr' := fresh "tr" in let Ht := fresh "Ht" in let Hn := fresh "Hn" in
      destruct (cleanup_teams_trace srv i L) as (tr' & Ht & Hn);
      rewrite E in Ht; simpl in Ht; rewrite Ht in Hl
  end;
  log_eq Hl; subst; simpl in Hin;
  repeat match type of Hin with
         | _ \/ _ => destruct Hin as [Hin|Hin]
         end;
  try discriminate Hin; try contradiction;
  try (exfalso; match goal with Hn : no_puts ?t = true |- _ =>
         let Hc := fresh in pose proof (no_puts_in _ _ Hn Hin) as Hc;
         simpl in Hc; discriminate Hc end);
  try (injection Hin as <- <-).

(** Claim C4 (amended): every update (PUT) body an activation sends has
    only allow-listed fields; every update body a deactivation sends has
    only allow-listed fields and the three location fields Region, Area
    and Country, which it sets to the empty string. *)
Theorem update_payloads_fields server operation_type u log0 tr id body :
  operation_type = Some "activation" \/ operation_type = Some "deactivation" ->
  snd (row_operation server operation_type u log0) = log0 ++ tr ->
  In (PutUser id body) tr ->
  (forall k, In k (dict_keys body) -> In k (payload_fields operation_type)) /\
  (operation_type = Some "deactivation" ->
   forall k, In k location_fields -> dict_get body k = Some (JStr "")).
Proof.
  intros [-> | ->] Htr Hin; unfold row_operation, payload_fields in *; simpl in *.
  - destruct (activate_user server u log0) as [o l] eqn:H. simpl in Htr. subst l.
    unfold activate_user in H. run H.
    all: put_in_trace H Hin.
    all: split; [|discriminate].
    all: match goal with E : sanitize_user_data _ _ = Ret _ |- _ =>
           exact (sanitize_user_data_keys _ _ _ E) end.
  - destruct (deactivate_user server u log0) as [o l] eqn:H. simpl in Htr. subst l.
    unfold deactivate_user in H. run H.
    all: put_in_trace H Hin.
    all: match goal with E : deactivation_update_data _ = Ret _ |- _ =>
           destruct (deactivation_update_data_fields _ _ E) as [Hk Hl];
           split; [exact Hk | intros _; exact Hl] end.
Qed.

(** ** C5: an unrecognised operation type *)

Lemma invalid_operation_type_rejects_first_row server operation_type u us log :
  op_is operation_type "activation" = false ->
  op_is operation_type "deactivation" = false ->
  process_usernames server operation_type (u :: us) log
    = (Ret (BatchError "Invalid operation type" 400), log).
Proof.
  intros Ha Hd. unfold process_usernames, catch. simpl. rewrite Ha, Hd. reflexivity.
Qed.

(** Claim C5 (evaluated at the failing input): the operation type is only
    checked inside the row loop, so a CSV with a [username] column and no
    rows, sent with an unrecognised operation type, gets the success
    response with no results (labelled "Deactivation") instead of the
    batch-level error. *)
Theorem invalid_operation_type_empty_csv_succeeds server :
  process_usernames server (Some "purge") [] []
    = (Ret (BatchOk [] "Deactivation"), []).
Proof. reflexivity. Qed.

(** ** Witnesses and counterexamples *)

Lemma process_usernames_one_result_per_row_witness :
  exists results log',
    process_usernames (directory 200 teams_listed) (Some "deactivation")
      [JStr "erin"; JStr "carol"; JStr "nobody"] []
      = (Ret (BatchOk results "Deactivation"), log') /\
    sequential (row_operation (directory 200 teams_listed) (Some "deactivation"))
      [JStr "erin"; JStr "carol"; JStr "nobody"] results [] log' /\
    map res_username results = [JStr "erin"; JStr "carol"; JStr "nobody"].
Proof.
  apply (process_usernames_one_result_per_row (directory 200 teams_listed)
           (Some "deactivation") [JStr "erin"; JStr "carol"; JStr "nobody"] []).
  right. reflexivity.
Defined.

Lemma duplicate_state_issues_no_update_witness :
  activate_user (directory 200 teams_listed) (JStr "erin") []
    = (Ret (mk_result (JStr "erin") false msg_duplicate_activation),
       [GetUsersSearch (JStr "erin")]) /\
  deactivate_user (directory 200 teams_listed) (JStr "carol") []
    = (Ret (mk_result (JStr "carol") false msg_duplicate_deactivation),
       [GetUsersSearch (JStr "carol")]).
Proof.
  split.
  - apply (proj1 (duplicate_state_issues_no_update (directory 200 teams_listed)
             (JStr "erin") [] search_response (JArr directory_users) directory_users
             erin_record eq_refl eq_refl eq_refl eq_refl eq_refl)).
    reflexivity.
  - apply (proj2 (duplicate_state_issues_no_update (directory 200 teams_listed)
             (JStr "carol") [] search_response (JArr directory_users) directory_users
             carol_record eq_refl eq_refl eq_refl eq_refl eq_refl)).
    reflexivity.
Defined.

Lemma deactivate_inactive_user_result_witness :
  deactivate_user (directory 200 teams_listed) (JStr "CAROL") []
    = (Ret (mk_result (JStr "CAROL") false
              "Error: User is already inactive. Duplicate deactivation attempt."),
       [GetUsersSearch (JStr "CAROL")]).
Proof.
  apply (deactivate_inactive_user_result (directory 200 teams_listed)
           (JStr "CAROL") [] search_response (JArr directory_users) directory_users
           carol_record); reflexivity.
Defined.

Lemma missing_active_passes_both_guards_witness :
  activation_guard frank_record = false /\ deactivation_guard frank_record = false /\
  (exists rest, snd (activate_user (directory 200 teams_listed) (JStr "frank") [])
     = [GetUsersSearch (JStr "frank"); GetUser (JNum 3)] ++ rest) /\
  (exists rest, snd (deactivate_user (directory 200 teams_listed) (JStr "frank") [])
     = [GetUsersSearch (JStr "frank"); GetUser (JNum 3)] ++ rest).
Proof.
  destruct (missing_active_passes_both_guards (directory 200 teams_listed)
              (JStr "frank") [] search_response (JArr directory_users) directory_users
              frank_record eq_refl eq_refl eq_refl eq_refl eq_refl eq_refl)
    as (Ga & Gd & Hops).
  destruct (Hops ltac:(discriminate)) as [Ha Hd].
  split; [exact Ga|]. split; [exact Gd|]. split; [exact Ha | exact Hd].
Defined.

Lemma deactivate_failed_update_skips_team_cleanup_witness :
  success (mk_result (JStr "erin") false "Failed to deactivate user: ") = false /\
  message (mk_result (JStr "erin") false "Failed to deactivate user: ")
    = ("Failed to deactivate user: " ++ "")%string /\
  @nil request = [].
Proof.
  apply (deactivate_failed_update_skips_team_cleanup (directory 500 teams_listed)
           (JStr "erin") [] (mk_result (JStr "erin") false "Failed to deactivate user: ")
           [GetUsersSearch (JStr "erin"); GetUser (JNum 1);
            PutUser (JNum 1) erin_deactivation_payload]
           [GetUsersSearch (JStr "erin"); GetUser (JNum 1)]
           (JNum 1) erin_deactivation_payload [] (mk_response 500 "" None)).
  - vm_compute. reflexivity.
  - reflexivity.
  - reflexivity.
  - reflexivity.
Defined.

Lemma deactivate_successful_update_result_witness :
  mk_result (JStr "erin") true msg_deactivated
  = match fst (cleanup_teams (directory 200 teams_unavailable) (JNum 1)
                 [GetUsersSearch (JStr "erin"); GetUser (JNum 1);
                  PutUser (JNum 1) erin_deactivation_payload]) with
    | Ret _ => mk_result (JStr "erin") true msg_deactivated
    | Raise e => mk_result (JStr "erin") false ("Error: " ++ e)
    end.
Proof.
  apply (deactivate_successful_update_result (directory 200 teams_unavailable)
           (JStr "erin") [] (mk_result (JStr "erin") true msg_deactivated)
           [GetUsersSearch (JStr "erin"); GetUser (JNum 1);
            PutUser (JNum 1) erin_deactivation_payload; GetUserTeams (JNum 1)]
           [GetUsersSearch (JStr "erin"); GetUser (JNum 1)]
           (JNum 1) erin_deactivation_payload [GetUserTeams (JNum 1)]
           (mk_response 200 "" None)).
  - vm_compute. reflexivity.
  - reflexivity.
  - reflexivity.
  - reflexivity.
Defined.

(** Claim C7 as stated fails: the update succeeds, the team listing
    raises a connection error, and the deactivation reports failure. *)
Lemma deactivate_team_listing_error_counterexample :
  ~ (forall server u log0 r log1 pre id body post resp,
       deactivate_user server u log0 = (Ret r, log1) ->
       log1 = log0 ++ pre ++ PutUser id body :: post ->
       server (log0 ++ pre) (PutUser id body) = Replied resp ->
       update_ok (status_code resp) = true ->
       r = mk_result u true msg_deactivated).
Proof.
  intros H.
  assert (Hc := H (directory 200 teams_connection_aborted) (JStr "erin") []
                  (mk_result (JStr "erin") false "Error: Connection aborted.")
                  [GetUsersSearch (JStr "erin"); GetUser (JNum 1);
                   PutUser (JNum 1) erin_deactivation_payload; GetUserTeams (JNum 1)]
                  [GetUsersSearch (JStr "erin"); GetUser (JNum 1)]
                  (JNum 1) erin_deactivation_payload [GetUserTeams (JNum 1)]
                  (mk_response 200 "" None)
                  ltac:(vm_compute; reflexivity) eq_refl eq_refl eq_refl).
  injection Hc as Hc. discriminate Hc.
Qed.

(** Claim C4 as stated fails: the deactivation of [erin] sends Region. *)
Lemma deactivation_payload_outside_allow_list_counterexample :
  ~ (forall server u log0 id body,
       In (PutUser id body) (snd (deactivate_user server u log0)) ->
       forall k, In k (dict_keys body) -> In k allowed).
Proof.
  intros H.
  assert (Hk := H (directory 200 teams_listed) (JStr "erin") [] (JNum 1)
                  erin_deactivation_payload
                  ltac:(vm_compute; right; right; left; reflexivity)
                  "Region" ltac:(vm_compute; tauto)).
  simpl in Hk. repeat destruct Hk as [Hk|Hk]; discriminate Hk || exact Hk.
Qed.

Lemma update_payloads_fields_witness :
  (forall k, In k (dict_keys erin_deactivation_payload) ->
             In k (payload_fields (Some "deactivation"))) /\
  (Some "deactivation" = Some "deactivation" ->
   forall k, In k location_fields -> dict_get erin_deactivation_payload k = Some (JStr "")).
Proof.
  apply (update_payloads_fields (directory 200 teams_listed) (Some "deactivation")
           (JStr "erin") []
           [GetUsersSearch (JStr "erin"); GetUser (JNum 1);
            PutUser (JNum 1) erin_deactivation_payload; GetUserTeams (JNum 1);
            DeleteTeamUser (JNum 10) (JNum 1); DeleteTeamUser (JNum 11) (JNum 1)]
           (JNum 1) erin_deactivation_payload).
  - right. reflexivity.
  - vm_compute. reflexivity.
  - simpl. right. right. left. reflexivity.
Defined.

(** Claim C3 as stated fails: for [erin], whose Region is "North", the
    sanitizer's output has no Region field with either flag, so it neither
    sets it to "" (flag false) nor leaves it untouched (flag true). *)
Lemma sanitize_user_data_location_counterexample :
  dict_get erin_record "Region" = Some (JStr "North") /\
  (exists clean, sanitize_user_data erin false = Ret clean /\
                 dict_get clean "Region" = None) /\
  (exists clean, sanitize_user_data erin true = Ret clean /\
                 dict_get clean "Region" = None).
Proof.
  split; [reflexivity|]. split; eexists; split; reflexivity.
Qed.

Lemma sanitize_user_data_allow_list_witness :
  exists clean, sanitize_user_data erin false = Ret clean /\
  (exists payload, deactivation_update_data erin = Ret payload /\
   (forall k, In k location_fields -> dict_get payload k = Some (JStr ""))).
Proof.
  destruct (sanitize_user_data_allow_list erin_record false)
    as (clean & Hs & _ & _ & _ & _ & Hp).
  exists clean. split; [exact Hs|].
  destruct (Hp eq_refl) as (payload & Hd & Hl & _).
  exists payload. split; [exact Hd | exact Hl].
Defined.

(** ** The endpoint: upload checks, errors and the session *)

Lemma process_rows_outcome server op us acc log :
  (exists rs, fst (process_rows server op us acc log)
              = Ret (BatchOk rs (operation_label op))) \/
  fst (process_rows server op us acc log) = Ret (BatchError "Invalid operation type" 400).
Proof.
  revert acc log. induction us as [|u us IH]; intros acc log; simpl.
  - left. eexists. reflexivity.
  - destruct (op_is op "activation") eqn:Ea.
    + destruct (activate_user_total server u log) as (r & log1 & Hr).
      unfold bind. rewrite !Hr. apply IH.
    + destruct (op_is op "deactivation") eqn:Ed.
      * destruct (deactivate_user_total server u log) as (r & log1 & Hr).
        unfold bind. rewrite !Hr. apply IH.
      * right. reflexivity.
Qed.







(** A success response stores its results and the operation's label in the
    session, which the results page then shows; an error response leaves the
    session as it was, so the results page keeps showing the previous batch
    (or no results and "Unknown" for a new session). *)
Theorem process_csv_session_update server decode_utf8 read_csv req sess log
    resp sess' log' :
  process_csv server decode_utf8 read_csv req sess log = (Ret (resp, sess'), log') ->
  match resp with
  | JsonSuccess results =>
      results_page sess' = (results, operation_label (form_operation_type req))
  | JsonError _ _ => sess' = sess
  end.
Proof.
  intros H. unfold process_csv in H. run H.
  all: injection H as H1 H2 H3; subst; try reflexivity.
  match goal with
  | Hp : process_rows ?s ?o ?us ?acc ?lg = (Ret (BatchOk _ _), _) |- _ =>
      pose proof (process_rows_outcome s o us acc lg) as P;
      rewrite Hp in P; simpl in P; destruct P as [[rs Hr] | Hr];
      [injection Hr; intros; subst; reflexivity | discriminate Hr]
  end.
Qed.

(** ** Lifecycle operations: early exits *)

(** A search answered with a status other than 200 ends either operation
    with "Failed to find user: " and the response text; the search is the
    only request. *)
Theorem lifecycle_search_failure server u log0 resp :
  server log0 (GetUsersSearch u) = Replied resp ->
  status_code resp <> 200%Z ->
  activate_user server u log0
    = (Ret (mk_result u false ("Failed to find user: " ++ text resp)),
       log0 ++ [GetUsersSearch u]) /\
  deactivate_user server u log0
    = (Ret (mk_result u false ("Failed to find user: " ++ text resp)),
       log0 ++ [GetUsersSearch u]).
Proof.
  intros Hs Hst. apply Z.eqb_neq in Hst.
  split; [unfold activate_user | unfold deactivate_user];
    unfold catch, bind, http; rewrite Hs; simpl; rewrite Hst; reflexivity.
Qed.

(** When no candidate of the search matches (or the match is an empty
    record), either operation answers "User not found" after the search
    alone. *)
Theorem lifecycle_user_not_found server u log0 resp users candidates user :
  server log0 (GetUsersSearch u) = Replied resp ->
  status_code resp = 200%Z ->
  response_json resp = Ret users ->
  py_iter users = Ret candidates ->
  find_user u candidates = Ret user ->
  user_missing user = true ->
  activate_user server u log0
    = (Ret (mk_result u false "User not found"), log0 ++ [GetUsersSearch u]) /\
  deactivate_user server u log0
    = (Ret (mk_result u false "User not found"), log0 ++ [GetUsersSearch u]).
Proof.
  intros Hs Hst Hj Hi Hf Hm. split.
  - destruct (activate_user server u log0) as [o l] eqn:H.
    unfold activate_user in H. run H.
    all: settle; rewrite ?Hst in *; try discriminate; try congruence.
  - destruct (deactivate_user server u log0) as [o l] eqn:H.
    unfold deactivate_user in H. run H.
    all: settle; rewrite ?Hst in *; try discriminate; try congruence.
Qed.

Lemma find_user_non_string u d rest :
  (forall s, u <> JStr s) ->
  (exists s, dict_get_default d "UserName" (JStr "") = JStr s) ->
  exists e, find_user u (JObj d :: rest) = Raise e.
Proof.
  intros Hu [s Hs]. simpl. rewrite Hs.
  destruct u; try (eexists; reflexivity). exfalso. eapply Hu. reflexivity.
Qed.

(** A username that is not a string (pandas gives NaN for an empty cell)
    fails either operation with an "Error: " message once the search returns
    a candidate record, after the search alone. *)
Theorem lifecycle_non_string_username server u log0 resp d rest :
  (forall s, u <> JStr s) ->
  server log0 (GetUsersSearch u) = Replied resp ->
  status_code resp = 200%Z ->
  response_json resp = Ret (JArr (JObj d :: rest)) ->
  (exists s, dict_get_default d "UserName" (JStr "") = JStr s) ->
  (exists e, activate_user server u log0
               = (Ret (mk_result u false ("Error: " ++ e)), log0 ++ [GetUsersSearch u])) /\
  (exists e, deactivate_user server u log0
               = (Ret (mk_result u false ("Error: " ++ e)), log0 ++ [GetUsersSearch u])).
Proof.
  intros Hu Hs Hst Hj Hn. destruct (find_user_non_string u d rest Hu Hn) as [e He].
  assert (Hi : py_iter (JArr (JObj d :: rest)) = Ret (JObj d :: rest)) by reflexivity.
  split; exists e.
  - destruct (activate_user server u log0) as [o l] eqn:H.
    unfold activate_user in H. run H.
    all: settle; rewrite ?Hst in *; try discriminate; try congruence.
  - destruct (deactivate_user server u log0) as [o l] eqn:H.
    unfold deactivate_user in H. run H.
    all: settle; rewrite ?Hst in *; try discriminate; try congruence.
Qed.

(** When the detail fetch of a user that passed the idempotency guard is
    answered with a status other than 200, the operation ends with "Failed to
    get user details: " and the response text; no update is sent. *)
Theorem lifecycle_details_failure server u log0 resp users candidates d dresp :
  server log0 (GetUsersSearch u) = Replied resp ->
  status_code resp = 200%Z ->
  response_json resp = Ret users ->
  py_iter users = Ret candidates ->
  find_user u candidates = Ret (Some d) ->
  d <> [] ->
  server (log0 ++ [GetUsersSearch u]) (GetUser (dict_get_default d "Id" JNull))
    = Replied dresp ->
  status_code dresp <> 200%Z ->
  (activation_guard d = false ->
   activate_user server u log0
     = (Ret (mk_result u false ("Failed to get user details: " ++ text dresp)),
        log0 ++ [GetUsersSearch u; GetUser (dict_get_default d "Id" JNull)])) /\
  (deactivation_guard d = false ->
   deactivate_user server u log0
     = (Ret (mk_result u false ("Failed to get user details: " ++ text dresp)),
        log0 ++ [GetUsersSearch u; GetUser (dict_get_default d "Id" JNull)])).
Proof.
  intros Hs Hst Hj Hi Hf Hd Hg Hgst. apply Z.eqb_neq in Hgst.
  assert (Hm : user_missing (Some d) = false) by (destruct d; [congruence | reflexivity]).
  split; intros Hguard.
  - destruct (activate_user server u log0) as [o l] eqn:H.
    unfold activate_user in H. run H.
    all: settle; rewrite ?Hst, ?Hgst, ?Hm, ?Hguard in *; try discriminate.
    all: rewrite <- ?app_assoc in *; first [congruence | rewrite <- H; reflexivity].
  - destruct (deactivate_user server u log0) as [o l] eqn:H.
    unfold deactivate_user in H. run H.
    all: settle; rewrite ?Hst, ?Hgst, ?Hm, ?Hguard in *; try discriminate.
    all: rewrite <- ?app_assoc in *; first [congruence | rewrite <- H; reflexivity].
Qed.

(** ** Lifecycle operations: the update request *)

(** In an activation, the update is the last request, preceded only by the
    search and the detail fetch of the same user; the outcome is decided by
    the update's reply: success exactly for 200, 201 or 204, the response
    text otherwise, the exception text when the request itself fails. *)
Theorem activate_update_decides_result server u log0 r log1 pre id body post :
  activate_user server u log0 = (Ret r, log1) ->
  log1 = log0 ++ pre ++ PutUser id body :: post ->
  post = [] /\ pre = [GetUsersSearch u; GetUser id] /\
  match server (log0 ++ pre) (PutUser id body) with
  | ConnError e => r = mk_result u false ("Error: " ++ e)
  | Replied resp =>
      r = if update_ok (status_code resp) then mk_result u true msg_activated
          else mk_result u false ("Failed to activate user: " ++ text resp)
  end.
Proof.
  intros H Hlog. unfold activate_user in H. run H.
  all: injection H as Hr <-.
  all: try (exfalso; log_eq Hlog;
            eapply no_puts_split; [exact Hlog | reflexivity | reflexivity]).
  all: log_eq Hlog.
  all: destruct (put_split [_; _] _ [] _ _ _ Hlog eq_refl eq_refl eq_refl)
         as (-> & Hy & ->).
  all: injection Hy as -> ->.
  all: split; [reflexivity|]; split; [reflexivity|].
  all: rewrite <- ?app_assoc in *; cbn [app] in *.
  all: match goal with
       | E : ?srv _ (PutUser _ _) = _ |- _ => rewrite E
       end.
  all: try (match goal with E : update_ok _ = _ |- _ => rewrite E end).
  all: subst r; reflexivity.
Qed.

Ltac status_200 :=
  repeat match goal with
  | E : negb (Z.eqb _ _) = false |- _ => apply negb_false_iff, Z.eqb_eq in E
  end.

(** A successful activation went through the whole path: the search found
    the user and the guard let it pass, the detail fetch answered 200, the
    update carried the sanitized details with [Active = true] and was
    answered 200, 201 or 204, and it was the last request. *)
Theorem activate_success_sends_sanitized_update server u log0 r log1 :
  activate_user server u log0 = (Ret r, log1) ->
  success r = true ->
  exists resp users candidates d dresp details body uresp,
    let id := dict_get_default d "Id" JNull in
    server log0 (GetUsersSearch u) = Replied resp /\ status_code resp = 200%Z /\
    response_json resp = Ret users /\ py_iter users = Ret candidates /\
    find_user u candidates = Ret (Some d) /\ activation_guard d = false /\
    server (log0 ++ [GetUsersSearch u]) (GetUser id) = Replied dresp /\
    status_code dresp = 200%Z /\ response_json dresp = Ret details /\
    sanitize_user_data details true = Ret body /\
    server (log0 ++ [GetUsersSearch u; GetUser id]) (PutUser id body) = Replied uresp /\
    update_ok (status_code uresp) = true /\
    log1 = log0 ++ [GetUsersSearch u; GetUser id; PutUser id body] /\
    r = mk_result u true msg_activated.
Proof.
  intros H Hs. unfold activate_user in H. run H.
  all: injection H as <- <-; try discriminate Hs.
  status_200. rewrite <- ?app_assoc in *. cbn [app] in *.
  do 8 eexists. cbv zeta.
  repeat (split; [first [eassumption | reflexivity]|]).
  reflexivity.
Qed.

(** A successful deactivation went through the whole path: the search found
    the user and the guard let it pass, the detail fetch answered 200, the
    update carried the sanitized details with [Active = false] and the
    location fields cleared and was answered 200, 201 or 204, and the team
    cleanup then ran to its end without raising. *)
Theorem deactivate_success_sends_cleared_update server u log0 r log1 :
  deactivate_user server u log0 = (Ret r, log1) ->
  success r = true ->
  exists resp users candidates d dresp details body uresp,
    let id := dict_get_default d "Id" JNull in
    server log0 (GetUsersSearch u) = Replied resp /\ status_code resp = 200%Z /\
    response_json resp = Ret users /\ py_iter users = Ret candidates /\
    find_user u candidates = Ret (Some d) /\ deactivation_guard d = false /\
    server (log0 ++ [GetUsersSearch u]) (GetUser id) = Replied dresp /\
    status_code dresp = 200%Z /\ response_json dresp = Ret details /\
    deactivation_update_data details = Ret body /\
    server (log0 ++ [GetUsersSearch u; GetUser id]) (PutUser id body) = Replied uresp /\
    update_ok (status_code uresp) = true /\
    cleanup_teams server id (log0 ++ [GetUsersSearch u; GetUser id; PutUser id body])
      = (Ret tt, log1) /\
    r = mk_result u true msg_deactivated.
Proof.
  intros H Hs. unfold deactivate_user in H. run H.
  all: injection H as <- <-; try discriminate Hs.
  repeat match goal with x : unit |- _ => destruct x end.
  status_200.
  match goal with E : negb (update_ok _) = false |- _ => apply negb_false_iff in E end.
  rewrite <- ?app_assoc in *. cbn [app] in *.
  do 8 eexists. cbv zeta.
  repeat (split; [first [eassumption | reflexivity]|]).
  reflexivity.
Qed.

(** ** Lifecycle operations: the requests issued *)

Lemma no_puts_filter l : no_puts l = true -> filter is_put l = [].
Proof.
  induction l as [|q l IH]; simpl; [reflexivity|].
  intros H. apply andb_prop in H as [Hq Hl]. destruct (is_put q); [discriminate|].
  apply IH, Hl.
Qed.

Lemma remove_from_teams_user server user_id teams log :
  exists tr, snd (remove_from_teams server user_id teams log) = log ++ tr /\
             Forall (fun q => request_user q = Some user_id) tr /\ no_puts tr = true.
Proof.
  revert log. induction teams as [|team teams IH]; intros log; simpl.
  - exists []. rewrite app_nil_r. auto.
  - destruct team; simpl; try (exists []; rewrite app_nil_r; auto; fail).
    unfold bind, http. destruct (server log _) as [r|e].
    + destruct (IH (log ++ [DeleteTeamUser (dict_get_default d "Id" JNull) user_id]))
        as (tr & Htr & Hf & Hp).
      rewrite Htr, <- app_assoc. eexists; split; [reflexivity|].
      split; [constructor; [reflexivity | exact Hf] | exact Hp].
    + simpl. eexists; split; [reflexivity|]. split; [repeat constructor | reflexivity].
Qed.

Lemma cleanup_teams_user server user_id log :
  exists tr, snd (cleanup_teams server user_id log) = log ++ tr /\
             Forall (fun q => request_user q = Some user_id) tr /\ no_puts tr = true.
Proof.
  unfold cleanup_teams, bind, http, lift, ret.
  destruct (server log (GetUserTeams user_id)) as [r|e]; simpl.
  - destruct (status_code r =? 200)%Z; simpl.
    + destruct (response_json r) as [j|e]; simpl;
        [|eexists; split; [reflexivity|]; split; [repeat constructor | reflexivity]].
      destruct (py_iter j) as [ts|e]; simpl;
        [|eexists; split; [reflexivity|]; split; [repeat constructor | reflexivity]].
      destruct (remove_from_teams_user server user_id ts (log ++ [GetUserTeams user_id]))
        as (tr & Htr & Hf & Hp).
      rewrite Htr, <- app_assoc. eexists; split; [reflexivity|].
      split; [constructor; [reflexivity | exact Hf] | exact Hp].
    + eexists; split; [reflexivity|]. split; [repeat constructor | reflexivity].
  - eexists; split; [reflexivity|]. split; [repeat constructor | reflexivity].
Qed.

Ltac one_user :=
  try match goal with
  | E : cleanup_teams ?srv ?id ?L = (_, ?l) |- _ =>
      let tr := fresh "tr" in let Ht := fresh "Ht" in
      destruct (cleanup_teams_user srv id L) as (tr & Ht & ? & ?);
      rewrite E in Ht; simpl in Ht; subst l
  end;
  first
  [ exists JNull, []; split; [reflexivity | split; [constructor | simpl; lia]]
  | eexists; eexists; split;
    [ rewrite <- ?app_assoc; reflexivity
    | simpl; split;
      [ repeat constructor; eassumption
      | try match goal with Hn : no_puts ?t = true |- _ =>
              rewrite (no_puts_filter t Hn) end;
        simpl; lia ] ] ].

(** Every request either operation issues after the search reads or changes
    the same user, and at most one of them is an update: team removals are
    for that user only and the search's other candidates are never
    touched. *)
Theorem lifecycle_requests_target_one_user server u log0 :
  (exists id rest,
     snd (activate_user server u log0) = log0 ++ GetUsersSearch u :: rest /\
     Forall (fun q => request_user q = Some id) rest /\
     (length (filter is_put rest) <= 1)%nat) /\
  (exists id rest,
     snd (deactivate_user server u log0) = log0 ++ GetUsersSearch u :: rest /\
     Forall (fun q => request_user q = Some id) rest /\
     (length (filter is_put rest) <= 1)%nat).
Proof.
  split.
  - destruct (activate_user server u log0) as [o l] eqn:H. simpl.
    unfold activate_user in H. run H.
    all: injection H as _ <-; one_user.
  - destruct (deactivate_user server u log0) as [o l] eqn:H. simpl.
    unfold deactivate_user in H. run H.
    all: injection H as _ <-; one_user.
Qed.

(** ** Team cleanup and the username match *)

Lemma remove_from_teams_all server user_id ts log :
  (forall h team_id, exists r, server h (DeleteTeamUser team_id user_id) = Replied r) ->
  remove_from_teams server user_id (map JObj ts) log
    = (Ret tt, log ++ map (fun t => DeleteTeamUser (dict_get_default t "Id" JNull) user_id) ts).
Proof.
  intros Hdel. revert log. induction ts as [|t ts IH]; intros log; simpl.
  - rewrite app_nil_r. reflexivity.
  - unfold bind, http.
    destruct (Hdel log (dict_get_default t "Id" JNull)) as [r Hr]. rewrite Hr.
    rewrite IH, <- app_assoc. reflexivity.
Qed.

(** When the team listing answers 200 with a list of team records and every
    removal gets a reply, whatever its status, the cleanup completes and
    sends one removal per listed team, in listing order, each for that
    team's Id and the user. *)
Theorem cleanup_teams_removes_every_team server user_id log resp ts :
  server log (GetUserTeams user_id) = Replied resp ->
  status_code resp = 200%Z ->
  response_json resp = Ret (JArr (map JObj ts)) ->
  (forall h team_id, exists r, server h (DeleteTeamUser team_id user_id) = Replied r) ->
  cleanup_teams server user_id log
    = (Ret tt, log ++ GetUserTeams user_id
                   :: map (fun t => DeleteTeamUser (dict_get_default t "Id" JNull) user_id) ts).
Proof.
  intros Hs Hst Hj Hdel. unfold cleanup_teams, bind, http, lift.
  rewrite Hs. apply Z.eqb_eq in Hst. simpl. rewrite Hst, Hj. simpl.
  rewrite remove_from_teams_all by exact Hdel. rewrite <- app_assoc. reflexivity.
Qed.



(** ** Witnesses of the properties above *)





Lemma process_csv_session_update_witness :
  results_page (mk_session (Some [mk_result (JStr "erin") true msg_deactivated])
                           (Some "Deactivation"))
  = ([mk_result (JStr "erin") true msg_deactivated],
     operation_label (form_operation_type roster_upload)).
Proof.
  apply (process_csv_session_update (directory 200 teams_unavailable) roster_decode
           roster_read roster_upload empty_session []
           (JsonSuccess [mk_result (JStr "erin") true msg_deactivated])
           (mk_session (Some [mk_result (JStr "erin") true msg_deactivated])
                       (Some "Deactivation"))
           [GetUsersSearch (JStr "erin"); GetUser (JNum 1);
            PutUser (JNum 1) erin_deactivation_payload; GetUserTeams (JNum 1)]).
  vm_compute. reflexivity.
Defined.

Lemma invalid_operation_type_rejects_first_row_witness :
  process_usernames (directory 200 teams_listed) (Some "purge") [JStr "erin"] []
    = (Ret (BatchError "Invalid operation type" 400), []).
Proof.
  apply invalid_operation_type_rejects_first_row; reflexivity.
Defined.

Lemma lifecycle_search_failure_witness :
  activate_user outage_directory (JStr "erin") []
    = (Ret (mk_result (JStr "erin") false ("Failed to find user: " ++ "Service Unavailable")),
       [GetUsersSearch (JStr "erin")]) /\
  deactivate_user outage_directory (JStr "erin") []
    = (Ret (mk_result (JStr "erin") false ("Failed to find user: " ++ "Service Unavailable")),
       [GetUsersSearch (JStr "erin")]).
Proof.
  apply (lifecycle_search_failure outage_directory (JStr "erin") []
           (mk_response 503 "Service Unavailable" None)).
  - reflexivity.
  - discriminate.
Defined.

Lemma lifecycle_user_not_found_witness :
  activate_user (directory 200 teams_listed) (JStr "zed") []
    = (Ret (mk_result (JStr "zed") false "User not found"), [GetUsersSearch (JStr "zed")]) /\
  deactivate_user (directory 200 teams_listed) (JStr "zed") []
    = (Ret (mk_result (JStr "zed") false "User not found"), [GetUsersSearch (JStr "zed")]).
Proof.
  apply (lifecycle_user_not_found (directory 200 teams_listed) (JStr "zed") []
           search_response (JArr directory_users) directory_users None);
    reflexivity.
Defined.

Lemma lifecycle_non_string_username_witness :
  (exists e, activate_user (directory 200 teams_listed) (JNum 5) []
               = (Ret (mk_result (JNum 5) false ("Error: " ++ e)),
                  [GetUsersSearch (JNum 5)])) /\
  (exists e, deactivate_user (directory 200 teams_listed) (JNum 5) []
               = (Ret (mk_result (JNum 5) false ("Error: " ++ e)),
                  [GetUsersSearch (JNum 5)])).
Proof.
  apply (lifecycle_non_string_username (directory 200 teams_listed) (JNum 5) []
           search_response erin_record [carol; frank; dave]).
  - intros s Hs. discriminate Hs.
  - reflexivity.
  - reflexivity.
  - reflexivity.
  - exists "erin". reflexivity.
Defined.

Lemma lifecycle_details_failure_witness :
  (activation_guard carol_record = false ->
   activate_user directory_without_details (JStr "carol") []
     = (Ret (mk_result (JStr "carol") false ("Failed to get user details: " ++ "Not Found")),
        [GetUsersSearch (JStr "carol"); GetUser (JNum 2)])) /\
  (deactivation_guard carol_record = false ->
   deactivate_user directory_without_details (JStr "carol") []
     = (Ret (mk_result (JStr "carol") false ("Failed to get user details: " ++ "Not Found")),
        [GetUsersSearch (JStr "carol"); GetUser (JNum 2)])).
Proof.
  apply (lifecycle_details_failure directory_without_details (JStr "carol") []
           search_response (JArr directory_users) directory_users carol_record
           (mk_response 404 "Not Found" None)).
  all: try reflexivity.
  - discriminate.
  - discriminate.
Defined.

Lemma activate_update_decides_result_witness :
  @nil request = [] /\
  [GetUsersSearch (JStr "carol"); GetUser (JNum 2)]
    = [GetUsersSearch (JStr "carol"); GetUser (JNum 2)] /\
  match directory 200 teams_listed [GetUsersSearch (JStr "carol"); GetUser (JNum 2)]
          (PutUser (JNum 2) carol_activation_payload) with
  | ConnError e => mk_result (JStr "carol") true msg_activated
                   = mk_result (JStr "carol") false ("Error: " ++ e)
  | Replied resp =>
      mk_result (JStr "carol") true msg_activated
      = if update_ok (status_code resp) then mk_result (JStr "carol") true msg_activated
        else mk_result (JStr "carol") false ("Failed to activate user: " ++ text resp)
  end.
Proof.
  apply (activate_update_decides_result (directory 200 teams_listed) (JStr "carol") []
           (mk_result (JStr "carol") true msg_activated)
           [GetUsersSearch (JStr "carol"); GetUser (JNum 2);
            PutUser (JNum 2) carol_activation_payload]
           [GetUsersSearch (JStr "carol"); GetUser (JNum 2)]
           (JNum 2) carol_activation_payload []).
  - vm_compute. reflexivity.
  - reflexivity.
Defined.

Lemma activate_success_sends_sanitized_update_witness :
  exists resp users candidates d dresp details body uresp,
    let id := dict_get_default d "Id" JNull in
    directory 200 teams_listed [] (GetUsersSearch (JStr "carol")) = Replied resp /\
    status_code resp = 200%Z /\
    response_json resp = Ret users /\ py_iter users = Ret candidates /\
    find_user (JStr "carol") candidates = Ret (Some d) /\ activation_guard d = false /\
    directory 200 teams_listed [GetUsersSearch (JStr "carol")] (GetUser id)
      = Replied dresp /\
    status_code dresp = 200%Z /\ response_json dresp = Ret details /\
    sanitize_user_data details true = Ret body /\
    directory 200 teams_listed [GetUsersSearch (JStr "carol"); GetUser id]
      (PutUser id body) = Replied uresp /\
    update_ok (status_code uresp) = true /\
    [GetUsersSearch (JStr "carol"); GetUser (JNum 2);
     PutUser (JNum 2) carol_activation_payload]
      = [GetUsersSearch (JStr "carol"); GetUser id; PutUser id body] /\
    mk_result (JStr "carol") true msg_activated
      = mk_result (JStr "carol") true msg_activated.
Proof.
  apply (activate_success_sends_sanitized_update (directory 200 teams_listed)
           (JStr "carol") [] (mk_result (JStr "carol") true msg_activated)
           [GetUsersSearch (JStr "carol"); GetUser (JNum 2);
            PutUser (JNum 2) carol_activation_payload]).
  - vm_compute. reflexivity.
  - reflexivity.
Defined.

Lemma deactivate_success_sends_cleared_update_witness :
  exists resp users candidates d dresp details body uresp,
    let id := dict_get_default d "Id" JNull in
    directory 200 teams_listed [] (GetUsersSearch (JStr "erin")) = Replied resp /\
    status_code resp = 200%Z /\
    response_json resp = Ret users /\ py_iter users = Ret candidates /\
    find_user (JStr "erin") candidates = Ret (Some d) /\ deactivation_guard d = false /\
    directory 200 teams_listed [GetUsersSearch (JStr "erin")] (GetUser id)
      = Replied dresp /\
    status_code dresp = 200%Z /\ response_json dresp = Ret details /\
    deactivation_update_data details = Ret body /\
    directory 200 teams_listed [GetUsersSearch (JStr "erin"); GetUser id]
      (PutUser id body) = Replied uresp /\
    update_ok (status_code uresp) = true /\
    cleanup_teams (directory 200 teams_listed) id
      [GetUsersSearch (JStr "erin"); GetUser id; PutUser id body]
      = (Ret tt, erin_deactivation_log) /\
    mk_result (JStr "erin") true msg_deactivated
      = mk_result (JStr "erin") true msg_deactivated.
Proof.
  apply (deactivate_success_sends_cleared_update (directory 200 teams_listed)
           (JStr "erin") [] (mk_result (JStr "erin") true msg_deactivated)
           erin_deactivation_log).
  - vm_compute. reflexivity.
  - reflexivity.
Defined.

Lemma cleanup_teams_removes_every_team_witness :
  cleanup_teams (directory 200 teams_listed) (JNum 1) []
    = (Ret tt, [] ++ GetUserTeams (JNum 1)
                 :: map (fun t => DeleteTeamUser (dict_get_default t "Id" JNull) (JNum 1))
                        [[("Id", JNum 10)]; [("Id", JNum 11)]]).
Proof.
  apply (cleanup_teams_removes_every_team (directory 200 teams_listed) (JNum 1) []
           (mk_response 200 "[...]"
              (Some (JArr [JObj [("Id", JNum 10)]; JObj [("Id", JNum 11)] ])))
           [[("Id", JNum 10)]; [("Id", JNum 11)]]).
  - reflexivity.
  - reflexivity.
  - reflexivity.
  - intros h team_id. eexists. reflexivity.
Defined.


